(** * A shallow embedding of the merlin client core (nmmq)

    Sources embedded:
    - [merlin/core/abc/enums.py]       : [OpCode], [State]
    - [merlin/core/abc/network.py]     : [BaseNetwork]
    - [merlin/core/abc/client.py]      : [AbstractClient.on_packet],
                                         [AbstractClient._discover_task]
    - [merlin/core/backend/discord/packet.py] : [Packet.__init__] (seq),
                                         [Packet.ack], [Packet.collect]
    - [merlin/core/backend/discord/client.py] : [Client.send_packet]

    Python exceptions are modelled by the type [exn]; a computation that
    raises keeps every mutation and every scheduled task it made before the
    raise. *)

From Stdlib Require Import String List ZArith Bool Lia.
Import ListNotations.
Open Scope string_scope.
Open Scope list_scope.
Set Warnings "-register-all".

(** ** Enumerations (enums.py) *)

Module OpCode.
Inductive t := Heartbeat | Alive | Dead | Data | Ack | Hello | Sync.

Definition eqb (a b : t) : bool :=
  match a, b with
  | Heartbeat, Heartbeat | Alive, Alive | Dead, Dead | Data, Data
  | Ack, Ack | Hello, Hello | Sync, Sync => true
  | _, _ => false
  end.

Lemma opcode_eqb_eq a b : eqb a b = true <-> a = b.
Proof. destruct a, b; simpl; split; congruence. Qed.
End OpCode.

Module State.
Inductive t := Dead | Connected | Discovery | Alive | Dying.

Definition eqb (a b : t) : bool :=
  match a, b with
  | Dead, Dead | Connected, Connected | Discovery, Discovery
  | Alive, Alive | Dying, Dying => true
  | _, _ => false
  end.

Lemma state_eqb_eq a b : eqb a b = true <-> a = b.
Proof. destruct a, b; simpl; split; congruence. Qed.
End State.

(** Python exceptions the embedded code can raise. *)
Inductive exn := AttributeError | NameError | IndexError | ValueError
               | TypeError | AssertionError.

(** Python results: a value, or a raised exception. *)
Inductive result (A : Type) := Ok (a : A) | Raise (e : exn).
Arguments Ok {A} a.
Arguments Raise {A} e.

(** ** Packets (abc/packet.py, backend/discord/packet.py) *)

(** The opaque [data] payload of a packet (JSON-like). *)
Inductive pyval :=
| PNone
| PInt (z : Z)
| PStr (s : string)
| PList (l : list pyval)
| PDict (kv : list (string * pyval)).

Record packet := mkPacket {
  seq : Z;
  op : OpCode.t;
  author : string;
  recipient : option string;   (* [None] is the broadcast recipient *)
  data : pyval;
  ttl : option Z;
  timestamp : option Z
}.

(** [Packet.expires]: [self.ttl is not None]. *)
Definition expires (p : packet) : bool :=
  match ttl p with Some _ => true | None => false end.

(** The module-level generator [AbstractPacket.sequence_number]
    ([itertools.count()]) is modelled by its next value [counter]. *)

(** [self.seq = kwargs.get('seq') or next(AbstractPacket.sequence_number)]:
    Python's [or] falls through on [None] and also on the falsy [0].
    Returns the chosen seq and the generator's new state. *)
Definition alloc_seq (kw_seq : option Z) (counter : Z) : Z * Z :=
  match kw_seq with
  | Some s => if Z.eqb s 0 then (counter, Z.succ counter) else (s, counter)
  | None => (counter, Z.succ counter)
  end.

(** [Packet.__init__] for the keyword arguments the embedded callers pass;
    [timestamp] is [None] for locally built packets. *)
Definition Packet_init (counter : Z) (kw_seq : option Z) (o : OpCode.t)
    (auth : string) (recip : option string) (d : pyval) (t : option Z)
    : packet * Z :=
  let '(s, counter') := alloc_seq kw_seq counter in
  (mkPacket s o auth recip d t None, counter').

(** [Packet.ack(data)]:
    [Packet(client, channel, op=OpCode.Ack, seq=self.seq,
            author=client.hostname, recipient=self.author, data=data).send()].
    Returns the packet handed to [send] and the generator's new state. *)
Definition Packet_ack (hostname : string) (counter : Z) (p : packet)
    (d : pyval) : packet * Z :=
  Packet_init counter (Some (seq p)) OpCode.Ack hostname (Some (author p)) d None.

(** ** The network stack (abc/network.py)

    [BaseNetwork] subclasses [list]: its elements are the members, and it
    carries one extra attribute [backlog]. *)

Record net := mkNet {
  members : list string;
  backlog : list packet
}.

(** [BaseNetwork.head]: [self[-1]], an [IndexError] on an empty list. *)
Definition head (n : net) : result string :=
  match rev (members n) with
  | [] => Raise IndexError
  | h :: _ => Ok h
  end.

(** Python's [list.remove(x)]: drops the first element equal to [x],
    raises [ValueError] when there is none. *)
Fixpoint py_list_remove {A} (eqb : A -> A -> bool) (x : A) (l : list A)
    : result (list A) :=
  match l with
  | [] => Raise ValueError
  | y :: r =>
      if eqb y x then Ok r
      else match py_list_remove eqb x r with
           | Ok r' => Ok (y :: r')
           | Raise e => Raise e
           end
  end.

(** [list.remove] on the members, inherited by [BaseNetwork] (it defines no
    [remove] of its own). *)
Definition list_remove (x : string) (l : list string) : result (list string) :=
  py_list_remove String.eqb x l.

(** [network.remove(packet.data)]: the members are host names (strings), so
    a non-string payload compares unequal to every member. *)
Definition remove (d : pyval) (n : net) : result net :=
  match d with
  | PStr h =>
      match list_remove h (members n) with
      | Ok ms => Ok (mkNet ms (backlog n))
      | Raise e => Raise e
      end
  | _ => Raise ValueError
  end.

(** [BaseNetwork.reset(data)]:
    [self.backlog = []; self.clear(); self.extend(data)]. *)
Definition reset (ms : list string) (n : net) : net := mkNet ms [].

(** Attribute names a [BaseNetwork] instance has: those of [list] and those
    defined in network.py. *)
Definition BaseNetwork_attrs : list string :=
  ["append"; "clear"; "copy"; "count"; "extend"; "index"; "insert"; "pop";
   "remove"; "reverse"; "sort"; "backlog"; "head"; "into_raw"; "reset";
   "step"].

(** Global names bound in the module abc/client.py (its imports, its class
    and the trailing import of enums.py's [OpCode]). *)
Definition client_module_globals : list string :=
  ["asyncio"; "logging"; "ABCMeta"; "abstractmethod"; "_defaultdict";
   "_functools_reduce"; "_socket_gethostname"; "State"; "OpCode";
   "BaseNetwork"; "AbstractPacket"; "AbstractClient"].

(** ** Listeners and the client (abc/client.py, backend/discord/client.py) *)

(** Handler objects stored in [_listeners].  Python compares functions by
    identity; every closure carries the identity [id] of its creation, so
    structural equality below is identity.
    - [HUser n]: a listener loaded from a service;
    - [HCallback id pseq cb]: the [callback(_self, recieved)] closure made by
      one [send_packet] call, over [packet.seq] and [ack_cb];
    - [HInner f]: the [inner( *args)] closure returned by [_(f)], which runs
      [f(f, *args)]. *)
Inductive handler :=
| HUser (n : nat)
| HCallback (id : nat) (pseq : Z) (cb : nat)
| HInner (f : handler).

Definition handler_eq_dec (a b : handler) : {a = b} + {a <> b}.
Proof. decide equality; auto using Nat.eq_dec, Z.eq_dec. Defined.

Definition handler_eqb (a b : handler) : bool :=
  if handler_eq_dec a b then true else false.

(** The state of an [AbstractClient] (with the module-level seq generator
    and the supply of fresh closure identities). *)
Record client := mkClient {
  hostname : string;
  cstate : State.t;
  network : net;
  (* [_listeners]: the key [None] is the wildcard *)
  listeners : option OpCode.t -> list handler;
  counter : Z;
  next_closure : nat
}.

Definition set_network (c : client) (n : net) : client :=
  mkClient (hostname c) (cstate c) n (listeners c) (counter c) (next_closure c).

Definition set_state (c : client) (s : State.t) : client :=
  mkClient (hostname c) s (network c) (listeners c) (counter c) (next_closure c).

Definition key_eqb (a b : option OpCode.t) : bool :=
  match a, b with
  | Some x, Some y => OpCode.eqb x y
  | None, None => true
  | _, _ => false
  end.

(** [self._listeners[k] = l]. *)
Definition set_listeners (c : client) (k : option OpCode.t) (l : list handler)
    : client :=
  mkClient (hostname c) (cstate c) (network c)
    (fun k' => if key_eqb k' k then l else listeners c k')
    (counter c) (next_closure c).

(** What [on_packet] and the handlers hand over to the event loop. *)
Inductive effect :=
| Dispatch (f : handler) (p : packet)      (* loop.create_task(func(packet)) *)
| CollectTask (p : packet)                 (* loop.create_task(packet.collect()) *)
| Respond (p : packet) (o : OpCode.t) (raw : net) (t : Z)
                                           (* await packet.respond(op, data, ttl) *)
| Send (p : packet).                       (* await packet.send() *)

(** [AbstractClient.on_packet(packet)]: the client after the call, the
    effects scheduled in order, and the exception it raised, if any. *)
Definition on_packet (c : client) (p : packet)
    : client * list effect * option exn :=
  let o := op p in
  if negb (State.eqb (cstate c) State.Alive
           || State.eqb (cstate c) State.Discovery)
  then (c, [], None)
  else
  let dispatched :=
    if State.eqb (cstate c) State.Alive
    then map (fun f => Dispatch f p) (listeners c (Some o) ++ listeners c None)
    else [] in
  let authored := String.eqb (author p) (hostname c) in
  let cleanup := if authored && expires p then [CollectTask p] else [] in
  let tasks := dispatched ++ cleanup in
  let elsewhere :=
    match recipient p with
    | Some r => negb (String.eqb r (hostname c))
    | None => false
    end in
  if authored || elsewhere then (c, tasks, None)
  else
  let nw := network c in
  if State.eqb (cstate c) State.Discovery then
    match o with
    (* [NetworkStack(packet.data, [])]: the name [NetworkStack] is not bound
       in abc/client.py ([client_module_globals]) *)
    | OpCode.Sync => (c, tasks, Some NameError)
    (* [self._network_stack.from_data(...)]: [BaseNetwork] has no attribute
       [from_data] ([BaseNetwork_attrs]) *)
    | OpCode.Hello => (c, tasks, Some AttributeError)
    (* [network.backlog.append(packet)] *)
    | _ => (set_network c (mkNet (members nw) (backlog nw ++ [p])), tasks, None)
    end
  else if OpCode.eqb o OpCode.Alive then
    (* [op == OpCode.Alive and network.head == self.hostname] *)
    match head nw with
    | Raise e => (c, tasks, Some e)
    | Ok h =>
        if String.eqb h (hostname c)
        then (* the response packet draws a fresh seq *)
          (mkClient (hostname c) (cstate c) nw (listeners c)
             (Z.succ (counter c)) (next_closure c),
           tasks ++ [Respond p OpCode.Hello nw 15], None)
        else (c, tasks, None)          (* falls through to the logging branch *)
    end
  else if OpCode.eqb o OpCode.Dead then
    match remove (data p) nw with
    | Ok nw' => (set_network c nw', tasks, None)
    | Raise e => (c, tasks, Some e)
    end
  else (c, tasks, None).

(** [Client.send_packet( *, ack_cb, op, recipient, data, ttl)]: the packet
    is built with [author=self.hostname] and sent; with an [ack_cb], the
    closure [_(callback)] is appended to [self._listeners[OpCode.Ack]].
    Returns the client and the packet handed to [send]. *)
Definition send_packet (c : client) (ack_cb : option nat) (o : OpCode.t)
    (recip : option string) (d : pyval) (t : option Z) : client * packet :=
  let '(pk, cnt) := Packet_init (counter c) None o (hostname c) recip d t in
  let c0 := mkClient (hostname c) (cstate c) (network c) (listeners c) cnt
              (next_closure c) in
  match ack_cb with
  | None => (c0, pk)
  | Some cb =>
      let id := next_closure c0 in
      let c1 := mkClient (hostname c0) (cstate c0) (network c0) (listeners c0)
                  (counter c0) (S id) in
      (set_listeners c1 (Some OpCode.Ack)
         (listeners c1 (Some OpCode.Ack) ++ [HInner (HCallback id (seq pk) cb)]),
       pk)
  end.

(** Observable calls made by running handler tasks. *)
Inductive event :=
| UserCalled (n : nat) (p : packet)
| AckCbCalled (cb : nat) (p : packet).

(** Body of [callback(_self, recieved)] in [send_packet]:
    [with suppress(ValueError): self._listeners[OpCode.Ack].remove(_self)]
    then [await ack_cb(recieved)]. *)
Definition call_with_self (self f : handler) (p : packet) (c : client)
    : client * list event :=
  match f with
  | HCallback _ s cb =>
      if Z.eqb (seq p) s then
        let l := listeners c (Some OpCode.Ack) in
        let l' := match py_list_remove handler_eqb self l with
                  | Ok l' => l'
                  | Raise _ => l          (* suppress(ValueError) *)
                  end in
        (set_listeners c (Some OpCode.Ack) l', [AckCbCalled cb p])
      else (c, [])
  | _ => (c, [])    (* only [inner] passes a function to itself *)
  end.

(** Running the task [func(packet)] of a dispatched handler. *)
Definition run_handler (f : handler) (p : packet) (c : client)
    : client * list event :=
  match f with
  | HUser n => (c, [UserCalled n p])
  | HInner g => call_with_self g g p c      (* inner: func(func, *args) *)
  | HCallback _ _ _ => (c, [])  (* callback(packet): TypeError, missing argument *)
  end.

(** The event loop runs the scheduled tasks in creation order. *)
Fixpoint run_effects (es : list effect) (c : client) : client * list event :=
  match es with
  | [] => (c, [])
  | Dispatch f p :: rest =>
      let '(c1, ev1) := run_handler f p c in
      let '(c2, ev2) := run_effects rest c1 in
      (c2, ev1 ++ ev2)
  | _ :: rest => run_effects rest c
  end.

(** One inbound packet: [on_packet] (an exception ends it, as the event
    dispatcher only logs it), then the tasks it scheduled. *)
Definition deliver (c : client) (p : packet) : client * list event :=
  let '(c1, es, _) := on_packet c p in
  run_effects es c1.

Definition is_ack_call (cb : nat) (e : event) : bool :=
  match e with AckCbCalled cb' _ => Nat.eqb cb cb' | _ => false end.

Definition ack_calls (cb : nat) (evs : list event) : nat :=
  length (filter (is_ack_call cb) evs).

(** ** Discovery ([AbstractClient._discover_task]) *)

(** [step = (1 for _ in range(15))]. *)
Definition discover_steps : list nat := repeat 1 15.

(** [while self._state is not State.Alive:
        try: await asyncio.sleep(next(step))
        except StopIteration: break]
    [obs n] tells whether the state is [Alive] at the check that follows the
    [n]-th sleep (it is set by [on_packet] while the task sleeps).  Returns
    the sleeps performed and whether [Alive] was observed. *)
Fixpoint wait_loop (gen : list nat) (obs : nat -> bool) (n : nat)
    (alive_now : bool) : list nat * bool :=
  if alive_now then ([], true)
  else match gen with
       | [] => ([], false)
       | d :: g =>
           let '(ds, a) := wait_loop g obs (S n) (obs (S n)) in
           (d :: ds, a)
       end.

(** [_functools_reduce(stack.step, backlog)] on a non-empty backlog: a single
    element is returned without a call; otherwise the bound method
    [step(op)] is called with two arguments and raises [TypeError]. *)
Definition replay_backlog (b : list packet) : option exn :=
  match b with
  | [_] => None
  | _ => Some TypeError
  end.

Inductive discover_outcome :=
| DFailed (sleeps : list nat) (e : exn) (sent : list packet)
| DReturned (sleeps : list nat) (sent : list packet)
| DTimedOut (sleeps : list nat) (c : client) (sent : list packet).

(** [_discover_task(alive_packet, sync_packet)].  [net_at] is the network
    stack as [on_packet] has left it when the wait ends (packets other than
    Hello/Sync are appended to its backlog meanwhile). *)
Definition discover_task (c : client) (alive_packet sync_packet : packet)
    (obs : nat -> bool) (net_at : net) : discover_outcome :=
  if State.eqb (cstate c) State.Discovery then DFailed [] AssertionError []
  else
  (* await alive_packet.send(); self._state = State.Discovery *)
  let '(sleeps, alive) :=
    wait_loop discover_steps obs 0 (State.eqb State.Discovery State.Alive) in
  if alive then DReturned sleeps [alive_packet]
  else
  let c1 := set_network c net_at in
  match backlog net_at with
  | [] =>
      DTimedOut sleeps
        (set_state (set_network c1 (reset [hostname c1] net_at)) State.Alive)
        [alive_packet]
  | b =>
      match replay_backlog b with
      | Some e => DFailed sleeps e [alive_packet]
      | None => DTimedOut sleeps (set_state c1 State.Alive)
                  [alive_packet; sync_packet]
      end
  end.

(** ** Cleanup of expired packets ([Packet.collect])

    [collect] runs as concurrent asyncio tasks on one packet.  A task runs
    without interruption up to its next [await]; the scheduler picks which
    task resumes, and the clock may advance between steps. *)

Record collect_world := mkWorld {
  collected : bool;     (* [self.__collected] *)
  attempts : nat;       (* calls of [self._message.delete()] *)
  now : Z               (* [time.time()] *)
}.

Inductive collect_pc :=
| CStart                (* not yet started *)
| CSleeping             (* suspended in [asyncio.sleep] before the deadline *)
| CDone.                (* returned, raised, or suspended in [delete()] *)

(** One uninterrupted run of a [collect] task on a packet with timestamp
    [ts] and [ttl = t]. *)
Definition collect_step (ts : option Z) (t : Z) (w : collect_world)
    (pc : collect_pc) : collect_world * collect_pc :=
  match pc with
  | CStart =>
      if collected w then (w, CDone)
      else
        let w1 := mkWorld true (attempts w) (now w) in
        match ts with
        | None => (w1, CDone)          (* [None + ttl]: TypeError *)
        | Some s =>
            if Z.leb (s + t) (now w1)
            then (mkWorld true (S (attempts w1)) (now w1), CDone)
            else (w1, CSleeping)
        end
  | CSleeping => (mkWorld (collected w) (S (attempts w)) (now w), CDone)
  | CDone => (w, CDone)
  end.

Inductive sched_action := RunTask (i : nat) | Tick (dt : Z).

Fixpoint replace_nth {A} (l : list A) (i : nat) (x : A) : list A :=
  match l, i with
  | [], _ => []
  | _ :: r, 0 => x :: r
  | y :: r, S j => y :: replace_nth r j x
  end.

Fixpoint run_sched (ts : option Z) (t : Z) (acts : list sched_action)
    (w : collect_world) (tasks : list collect_pc)
    : collect_world * list collect_pc :=
  match acts with
  | [] => (w, tasks)
  | RunTask i :: rest =>
      match nth_error tasks i with
      | Some pc =>
          let '(w', pc') := collect_step ts t w pc in
          run_sched ts t rest w' (replace_nth tasks i pc')
      | None => run_sched ts t rest w tasks
      end
  | Tick dt :: rest =>
      run_sched ts t rest (mkWorld (collected w) (attempts w) (now w + dt)) tasks
  end.

(** ** The default [backlog] argument ([BaseNetwork.__init__])

    [def __init__(self, *args, backlog=[], **kwargs)]: the default list is
    created once, when the [def] statement runs, and every call that omits
    [backlog] stores that same object.  Python lists live in a heap. *)

Module Heap.
Inductive pyobj := OStr (s : string) | OPacket (p : packet).

Record heap := mkHeap {
  cells : nat -> list pyobj;
  next_loc : nat
}.

(** A [BaseNetwork] object: the list it is, and its [backlog] attribute. *)
Record net_obj := mkNetObj {
  self_loc : nat;
  backlog_loc : nat
}.

(** The list object evaluated for the default of [backlog]. *)
Definition default_backlog_loc : nat := 0.

Definition set_cell (h : heap) (l : nat) (v : list pyobj) : heap :=
  mkHeap (fun l' => if Nat.eqb l' l then v else cells h l') (next_loc h).

Definition alloc (h : heap) (v : list pyobj) : nat * heap :=
  let l := next_loc h in
  (l, mkHeap (fun l' => if Nat.eqb l' l then v else cells h l') (S l)).

(** [BaseNetwork( *args, backlog=...)]; [bl = None] omits [backlog]. *)
Definition BaseNetwork_new (h : heap) (args : list pyobj) (bl : option nat)
    : net_obj * heap :=
  let '(l, h1) := alloc h args in
  (mkNetObj l (match bl with Some b => b | None => default_backlog_loc end), h1).

(** [lst.append(x)] on the list at [l]. *)
Definition append (h : heap) (l : nat) (x : pyobj) : heap :=
  set_cell h l (cells h l ++ [x]).
End Heap.

(** ** Sample inputs *)

(** Host [B] with one service listener for Data packets and one wildcard
    listener. *)
Definition sample_listeners (k : option OpCode.t) : list handler :=
  match k with
  | Some OpCode.Data => [HUser 1]
  | None => [HUser 2]
  | _ => []
  end.

Definition sample_client (s : State.t) (ms : list string) : client :=
  mkClient "B" s (mkNet ms []) sample_listeners 1 0.

Definition sample_packet (o : OpCode.t) (from : string) (d : pyval)
    (t : option Z) : packet :=
  mkPacket 7 o from None d t (Some 1000%Z).

Example sample_alive_dispatch :
  snd (deliver (sample_client State.Alive ["A"; "B"])
         (sample_packet OpCode.Data "A" PNone None))
  = [UserCalled 1 (sample_packet OpCode.Data "A" PNone None);
     UserCalled 2 (sample_packet OpCode.Data "A" PNone None)].
Proof. reflexivity. Qed.

Example sample_discovery_backlog :
  let '(c', es, e) := on_packet (sample_client State.Discovery [])
                        (sample_packet OpCode.Data "A" PNone None) in
  backlog (network c') = [sample_packet OpCode.Data "A" PNone None]
  /\ es = [] /\ e = None.
Proof. simpl. auto. Qed.

(** ** Basic facts *)

Lemma on_packet_alive_unfold (c : client) (p : packet) :
  cstate c = State.Alive ->
  on_packet c p =
  let tasks :=
    map (fun f => Dispatch f p) (listeners c (Some (op p)) ++ listeners c None)
    ++ (if String.eqb (author p) (hostname c) && expires p
        then [CollectTask p] else []) in
  let elsewhere :=
    match recipient p with
    | Some r => negb (String.eqb r (hostname c))
    | None => false
    end in
  if String.eqb (author p) (hostname c) || elsewhere then (c, tasks, None)
  else if OpCode.eqb (op p) OpCode.Alive then
    match head (network c) with
    | Raise e => (c, tasks, Some e)
    | Ok h =>
        if String.eqb h (hostname c)
        then (mkClient (hostname c) (cstate c) (network c) (listeners c)
                (Z.succ (counter c)) (next_closure c),
              tasks ++ [Respond p OpCode.Hello (network c) 15], None)
        else (c, tasks, None)
    end
  else if OpCode.eqb (op p) OpCode.Dead then
    match remove (data p) (network c) with
    | Ok nw' => (set_network c nw', tasks, None)
    | Raise e => (c, tasks, Some e)
    end
  else (c, tasks, None).
Proof. intros H. unfold on_packet. rewrite H. reflexivity. Qed.

(** ** C1: echo suppression while Alive *)

(** C1 (code_bug).  While the client is Alive, [on_packet] schedules every
    listener registered under the packet's op code and under the wildcard
    key for a packet whose author is the client's own hostname: the
    dispatch of step 2 runs before the echo filter of step 4. *)
Theorem on_packet_alive_dispatches_own_packet (c : client) (p : packet) :
  cstate c = State.Alive ->
  author p = hostname c ->
  on_packet c p =
  (c, map (fun f => Dispatch f p) (listeners c (Some (op p)) ++ listeners c None)
      ++ (if expires p then [CollectTask p] else []), None).
Proof.
  intros Hs Ha. rewrite on_packet_alive_unfold by exact Hs.
  cbv zeta. rewrite Ha, String.eqb_refl. reflexivity.
Qed.

Lemma on_packet_alive_dispatches_own_packet_witness :
  cstate (sample_client State.Alive ["A"; "B"]) = State.Alive
  /\ author (sample_packet OpCode.Data "B" PNone None)
     = hostname (sample_client State.Alive ["A"; "B"])
  /\ on_packet (sample_client State.Alive ["A"; "B"])
       (sample_packet OpCode.Data "B" PNone None)
     = (sample_client State.Alive ["A"; "B"],
        [Dispatch (HUser 1) (sample_packet OpCode.Data "B" PNone None);
         Dispatch (HUser 2) (sample_packet OpCode.Data "B" PNone None)], None).
Proof.
  split; [reflexivity | split; [reflexivity |]].
  apply (on_packet_alive_dispatches_own_packet
           (sample_client State.Alive ["A"; "B"])
           (sample_packet OpCode.Data "B" PNone None)); reflexivity.
Defined.

(** ** C3: Hello during Discovery *)

(** C3 (code_bug).  A client in Discovery that receives a Hello packet from
    another host, broadcast or addressed to it, raises [AttributeError]
    ([BaseNetwork] has no [from_data]): no effect is scheduled, the stack is
    not folded and the state stays Discovery. *)
Theorem on_packet_discovery_hello_raises (c : client) (p : packet) :
  cstate c = State.Discovery ->
  op p = OpCode.Hello ->
  author p <> hostname c ->
  (recipient p = None \/ recipient p = Some (hostname c)) ->
  ~ In "from_data" BaseNetwork_attrs
  /\ on_packet c p = (c, [], Some AttributeError)
  /\ cstate (fst (fst (on_packet c p))) = State.Discovery.
Proof.
  intros Hs Ho Ha Hr.
  assert (E : on_packet c p = (c, [], Some AttributeError)).
  { unfold on_packet. rewrite Hs, Ho. simpl.
    apply String.eqb_neq in Ha. rewrite Ha. simpl.
    destruct Hr as [Hr | Hr]; rewrite Hr; [reflexivity|].
    rewrite String.eqb_refl. reflexivity. }
  split; [simpl; intuition discriminate |].
  split; [exact E |]. rewrite E. exact Hs.
Qed.

Lemma on_packet_discovery_hello_raises_witness :
  let c := sample_client State.Discovery [] in
  let p := sample_packet OpCode.Hello "A"
             (PDict [("s", PList [PStr "A"]); ("b", PList [])]) (Some 15%Z) in
  cstate c = State.Discovery /\ op p = OpCode.Hello /\ author p <> hostname c
  /\ (recipient p = None \/ recipient p = Some (hostname c))
  /\ (~ In "from_data" BaseNetwork_attrs
      /\ on_packet c p = (c, [], Some AttributeError)
      /\ cstate (fst (fst (on_packet c p))) = State.Discovery).
Proof.
  cbv zeta. split; [reflexivity|]. split; [reflexivity|].
  split; [discriminate|]. split; [left; reflexivity|].
  apply on_packet_discovery_hello_raises;
    [reflexivity | reflexivity | discriminate | left; reflexivity].
Defined.

(** ** C8: the seq of an Ack *)

(** C8 (code_bug).  [p.ack(data)] for a packet whose seq is 0 does not echo
    it: [seq=0] is falsy, so the Ack draws the next value of the generator;
    the recipient is [p.author]. *)
Theorem ack_of_seq_zero_draws_fresh_seq (hn : string) (cnt : Z) (p : packet)
    (d : pyval) :
  seq p = 0%Z ->
  (0 < cnt)%Z ->
  seq (fst (Packet_ack hn cnt p d)) = cnt
  /\ seq (fst (Packet_ack hn cnt p d)) <> seq p
  /\ recipient (fst (Packet_ack hn cnt p d)) = Some (author p).
Proof.
  intros Hs Hc. unfold Packet_ack, Packet_init, alloc_seq. rewrite Hs.
  simpl. repeat split; lia.
Qed.

(** The first packet a process builds draws seq 0 from the generator. *)
Definition first_packet : packet :=
  fst (Packet_init 0 None OpCode.Data "A" None PNone (Some 60%Z)).

Lemma ack_of_seq_zero_draws_fresh_seq_witness :
  seq first_packet = 0%Z /\ (0 < 1)%Z
  /\ (seq (fst (Packet_ack "B" 1 first_packet PNone)) = 1%Z
      /\ seq (fst (Packet_ack "B" 1 first_packet PNone)) <> seq first_packet
      /\ recipient (fst (Packet_ack "B" 1 first_packet PNone))
         = Some (author first_packet)).
Proof.
  split; [reflexivity|]. split; [lia|].
  apply ack_of_seq_zero_draws_fresh_seq; [reflexivity | lia].
Defined.

(** For a non-zero seq the Ack does echo it. *)
Lemma ack_echoes_nonzero_seq (hn : string) (cnt : Z) (p : packet) (d : pyval) :
  seq p <> 0%Z ->
  seq (fst (Packet_ack hn cnt p d)) = seq p
  /\ recipient (fst (Packet_ack hn cnt p d)) = Some (author p).
Proof.
  intros Hs. unfold Packet_ack, Packet_init, alloc_seq.
  apply Z.eqb_neq in Hs. rewrite Hs. simpl. auto.
Qed.

(** ** C2: the transient Ack handler *)

Lemma py_list_remove_keeps (x y : handler) (l l' : list handler) :
  py_list_remove handler_eqb x l = Ok l' -> y <> x -> In y l -> In y l'.
Proof.
  revert l'. induction l as [|z r IH]; simpl; intros l' E Hyx Hin;
    [discriminate|].
  destruct (handler_eqb z x) eqn:Hzx.
  - unfold handler_eqb in Hzx.
    destruct (handler_eq_dec z x) as [->|]; [|discriminate].
    injection E as <-. destruct Hin as [->|Hin]; [congruence | exact Hin].
  - destruct (py_list_remove handler_eqb x r) as [r'|e] eqn:Er;
      [|discriminate].
    injection E as <-. destruct Hin as [->|Hin]; [left; reflexivity|].
    right. exact (IH r' eq_refl Hyx Hin).
Qed.

Lemma listeners_set_same (c : client) (k : option OpCode.t) (l : list handler) :
  listeners (set_listeners c k l) k = l.
Proof. destruct k as [[]|]; reflexivity. Qed.

(** Running a handler keeps the client's state and every [inner] closure
    registered for Ack packets: the only removal is of a [callback]. *)
Lemma run_handler_keeps (f : handler) (p : packet) (c : client) (z : handler) :
  In (HInner z) (listeners c (Some OpCode.Ack)) ->
  cstate (fst (run_handler f p c)) = cstate c
  /\ In (HInner z) (listeners (fst (run_handler f p c)) (Some OpCode.Ack)).
Proof.
  intros Hin. destruct f as [n | id s cb | g]; simpl; [auto | auto |].
  destruct g as [n | id s cb | g']; simpl; [auto | | auto].
  destruct (Z.eqb (seq p) s); simpl; [|auto].
  split; [reflexivity|].
  destruct (py_list_remove handler_eqb (HCallback id s cb)
              (listeners c (Some OpCode.Ack))) as [l'|e] eqn:E; [|exact Hin].
  apply (py_list_remove_keeps (HCallback id s cb) (HInner z) _ _ E);
    [discriminate | exact Hin].
Qed.

Lemma run_effects_keeps (es : list effect) (c : client) (z : handler) :
  In (HInner z) (listeners c (Some OpCode.Ack)) ->
  cstate (fst (run_effects es c)) = cstate c
  /\ In (HInner z) (listeners (fst (run_effects es c)) (Some OpCode.Ack)).
Proof.
  revert c. induction es as [|e rest IH]; intros c Hin; simpl; [auto|].
  destruct e as [f p | p | p o raw t | p]; try exact (IH c Hin).
  destruct (run_handler f p c) as [c1 ev1] eqn:E1.
  pose proof (run_handler_keeps f p c z Hin) as [Hs1 Hin1].
  rewrite E1 in Hs1, Hin1. simpl in Hs1, Hin1.
  destruct (run_effects rest c1) as [c2 ev2] eqn:E2.
  pose proof (IH c1 Hin1) as [Hs2 Hin2]. rewrite E2 in Hs2, Hin2.
  simpl in *. split; congruence.
Qed.

Lemma ack_calls_app (cb : nat) (l1 l2 : list event) :
  ack_calls cb (l1 ++ l2) = ack_calls cb l1 + ack_calls cb l2.
Proof. unfold ack_calls. rewrite filter_app, length_app. reflexivity. Qed.

(** A dispatched [inner(callback)] whose packet carries the awaited seq
    calls [ack_cb], whatever the client state. *)
Lemma run_effects_calls_cb (es : list effect) (c : client) (id : nat) (s : Z)
    (cb : nat) (p : packet) :
  In (Dispatch (HInner (HCallback id s cb)) p) es -> seq p = s ->
  1 <= ack_calls cb (snd (run_effects es c)).
Proof.
  revert c. induction es as [|e rest IH]; intros c Hin Hs; [destruct Hin|].
  destruct Hin as [-> | Hin].
  - simpl. rewrite Hs, Z.eqb_refl.
    destruct (run_effects rest _) as [c2 ev2]. unfold ack_calls. simpl.
    rewrite Nat.eqb_refl. simpl. lia.
  - destruct e as [f q | q | q o raw t | q]; simpl; try exact (IH c Hin Hs).
    destruct (run_handler f q c) as [c1 ev1].
    pose proof (IH c1 Hin Hs) as H.
    destruct (run_effects rest c1) as [c2 ev2]. simpl in *.
    rewrite ack_calls_app. lia.
Qed.

Lemma on_packet_alive_ack (c : client) (p : packet) :
  cstate c = State.Alive -> op p = OpCode.Ack ->
  exists es, on_packet c p = (c, es, None)
  /\ forall f, In f (listeners c (Some OpCode.Ack)) -> In (Dispatch f p) es.
Proof.
  intros Hs Ho. rewrite on_packet_alive_unfold by exact Hs. cbv zeta.
  rewrite Ho. simpl.
  eexists. split.
  - destruct (String.eqb (author p) (hostname c) || _); [reflexivity|].
    destruct (remove (data p) (network c)); reflexivity.
  - intros f Hf. apply in_or_app. left.
    apply (in_map (fun g => Dispatch g p)), in_or_app. left.
    exact Hf.
Qed.

Lemma deliver_alive_ack (c : client) (p : packet) (id : nat) (cb : nat) :
  cstate c = State.Alive -> op p = OpCode.Ack ->
  In (HInner (HCallback id (seq p) cb)) (listeners c (Some OpCode.Ack)) ->
  1 <= ack_calls cb (snd (deliver c p))
  /\ cstate (fst (deliver c p)) = State.Alive
  /\ In (HInner (HCallback id (seq p) cb))
        (listeners (fst (deliver c p)) (Some OpCode.Ack)).
Proof.
  intros Hs Ho Hin. destruct (on_packet_alive_ack c p Hs Ho) as [es [E Hes]].
  unfold deliver. rewrite E.
  pose proof (run_effects_keeps es c _ Hin) as [Hs' Hin'].
  split; [|split; [congruence | exact Hin']].
  exact (run_effects_calls_cb es c id (seq p) cb p (Hes _ Hin) eq_refl).
Qed.

(** C2 (code_bug).  After [send_packet] registers an [ack_cb], two Ack
    packets carrying the sent seq each call [ack_cb]: [callback] removes
    [_self], the bare [callback], while the list holds the wrapper [inner],
    so the [ValueError] is suppressed and the handler stays registered. *)
Theorem send_packet_ack_cb_called_twice (c : client) (cb : nat) (o : OpCode.t)
    (r : option string) (d : pyval) (t : option Z) (a1 a2 : packet) :
  cstate c = State.Alive ->
  op a1 = OpCode.Ack -> op a2 = OpCode.Ack ->
  seq a1 = seq (snd (send_packet c (Some cb) o r d t)) ->
  seq a2 = seq a1 ->
  let c1 := fst (send_packet c (Some cb) o r d t) in
  let c2 := fst (deliver c1 a1) in
  In (HInner (HCallback (next_closure c) (seq a1) cb))
     (listeners c2 (Some OpCode.Ack))
  /\ 1 <= ack_calls cb (snd (deliver c1 a1))
  /\ 1 <= ack_calls cb (snd (deliver c2 a2))
  /\ 2 <= ack_calls cb (snd (deliver c1 a1) ++ snd (deliver c2 a2)).
Proof.
  intros Hs Ho1 Ho2 Hq1 Hq2. cbv zeta.
  unfold send_packet, Packet_init, alloc_seq in *. simpl in *.
  set (c1 := set_listeners _ _ _).
  assert (Hs1 : cstate c1 = State.Alive) by exact Hs.
  assert (Hin1 : In (HInner (HCallback (next_closure c) (seq a1) cb))
                    (listeners c1 (Some OpCode.Ack))).
  { unfold c1. rewrite listeners_set_same. simpl. rewrite Hq1.
    apply in_or_app. right. left. reflexivity. }
  destruct (deliver_alive_ack c1 a1 _ cb Hs1 Ho1 Hin1) as [H1 [Hs2 Hin2]].
  rewrite <- Hq2 in Hin2.
  destruct (deliver_alive_ack _ a2 _ cb Hs2 Ho2 Hin2) as [H2 _].
  rewrite Hq2 in Hin2.
  rewrite ack_calls_app. repeat split; try lia. exact Hin2.
Qed.

(** The Ack that host [A] returns for the first packet [B] sends. *)
Definition sample_ack : packet :=
  mkPacket 1 OpCode.Ack "A" (Some "B") PNone None (Some 1000%Z).

Lemma send_packet_ack_cb_called_twice_witness :
  let c := sample_client State.Alive ["A"; "B"] in
  cstate c = State.Alive /\ op sample_ack = OpCode.Ack
  /\ seq sample_ack = seq (snd (send_packet c (Some 9) OpCode.Data None PNone None))
  /\ (let c1 := fst (send_packet c (Some 9) OpCode.Data None PNone None) in
      let c2 := fst (deliver c1 sample_ack) in
      In (HInner (HCallback (next_closure c) (seq sample_ack) 9))
         (listeners c2 (Some OpCode.Ack))
      /\ 1 <= ack_calls 9 (snd (deliver c1 sample_ack))
      /\ 1 <= ack_calls 9 (snd (deliver c2 sample_ack))
      /\ 2 <= ack_calls 9 (snd (deliver c1 sample_ack)
                           ++ snd (deliver c2 sample_ack))).
Proof.
  cbv zeta. split; [reflexivity|]. split; [reflexivity|].
  split; [reflexivity|].
  exact (send_packet_ack_cb_called_twice (sample_client State.Alive ["A"; "B"])
           9 OpCode.Data None PNone None sample_ack sample_ack
           eq_refl eq_refl eq_refl eq_refl eq_refl).
Defined.

Example sample_ack_round_trip :
  let c1 := fst (send_packet (sample_client State.Alive ["A"; "B"]) (Some 9)
                   OpCode.Data None PNone None) in
  let '(c2, ev1) := deliver c1 sample_ack in
  let '(_, ev2) := deliver c2 sample_ack in
  ack_calls 9 ev1 = 1 /\ ack_calls 9 ev2 = 1.
Proof. split; reflexivity. Qed.

(** ** C4 and C6: the discovery wait and its fallback *)

Lemma firstn_repeat_le {A} (x : A) (k m : nat) :
  k <= m -> firstn k (repeat x m) = repeat x k.
Proof.
  revert m. induction k as [|k IH]; intros m Hk; [reflexivity|].
  destruct m as [|m]; [lia|]. simpl. rewrite IH by lia. reflexivity.
Qed.

(** No [Alive] observed: the generator is exhausted. *)
Lemma wait_loop_exhausts (gen : list nat) (obs : nat -> bool) (n : nat) :
  (forall j, n < j <= n + length gen -> obs j = false) ->
  wait_loop gen obs n false = (gen, false).
Proof.
  revert n. induction gen as [|d g IH]; intros n Hobs; [reflexivity|].
  simpl. rewrite (Hobs (S n)) by (simpl; lia).
  rewrite IH; [reflexivity|]. intros j Hj. apply Hobs. simpl. lia.
Qed.

(** [Alive] first observed after the [k]-th sleep: the wait stops there. *)
Lemma wait_loop_stops (gen : list nat) (obs : nat -> bool) (n k : nat) :
  1 <= k <= length gen ->
  (forall j, n < j < n + k -> obs j = false) ->
  obs (n + k) = true ->
  wait_loop gen obs n false = (firstn k gen, true).
Proof.
  revert n k. induction gen as [|d g IH]; intros n k Hk Hbefore Hat;
    [simpl in Hk; lia|].
  simpl. destruct k as [|[|k]]; [lia| |].
  - rewrite Nat.add_1_r in Hat. rewrite Hat. destruct g; reflexivity.
  - rewrite (Hbefore (S n)) by lia.
    rewrite (IH (S n) (S k)); [reflexivity | simpl in Hk; lia | |].
    + intros j Hj. apply Hbefore. lia.
    + rewrite <- Hat. f_equal. lia.
Qed.

Definition outcome_sleeps (r : discover_outcome) : list nat :=
  match r with
  | DFailed s _ _ | DReturned s _ | DTimedOut s _ _ => s
  end.

Definition outcome_returned (r : discover_outcome) : bool :=
  match r with DReturned _ _ => true | _ => false end.

Definition never_alive (j : nat) : bool := false.

(** C4 (corrected), counterexample.  With no Hello or Sync, the task sleeps
    15 times one second (15 seconds in all), not 1, 2, ..., 15. *)
Lemma discover_steps_not_increasing :
  let r := discover_task (sample_client State.Connected []) first_packet
             first_packet never_alive (mkNet [] []) in
  outcome_sleeps r = repeat 1 15
  /\ outcome_sleeps r <> List.seq 1 15
  /\ list_sum (outcome_sleeps r) = 15.
Proof. cbv zeta. split; [reflexivity|]. split; [discriminate | reflexivity]. Qed.

(** C4 (corrected).  Entered outside Discovery, the task sleeps one second
    at a time, at most 15 times: when [Alive] is first observed after the
    [k]-th sleep it returns after exactly [k] one-second sleeps; when it is
    never observed it sleeps 15 times and runs the timeout fallback. *)
Theorem discover_task_one_second_steps (c : client) (a s : packet)
    (obs : nat -> bool) (n : net) :
  cstate c <> State.Discovery ->
  (forall k, 1 <= k <= 15 ->
     (forall j, 1 <= j < k -> obs j = false) -> obs k = true ->
     discover_task c a s obs n = DReturned (repeat 1 k) [a])
  /\ ((forall j, 1 <= j <= 15 -> obs j = false) ->
      outcome_sleeps (discover_task c a s obs n) = repeat 1 15
      /\ outcome_returned (discover_task c a s obs n) = false).
Proof.
  intros Hs.
  assert (Hns : State.eqb (cstate c) State.Discovery = false).
  { destruct (State.eqb _ _) eqn:E; [apply State.state_eqb_eq in E; contradiction|].
    reflexivity. }
  unfold discover_task. rewrite Hns. simpl State.eqb. split.
  - intros k Hk Hbefore Hat.
    rewrite (wait_loop_stops discover_steps obs 0 k Hk Hbefore Hat).
    unfold discover_steps. rewrite firstn_repeat_le by lia. reflexivity.
  - intros Hnone.
    rewrite wait_loop_exhausts.
    + destruct (backlog n) as [|p [|q b]]; simpl; split; reflexivity.
    + unfold discover_steps. rewrite repeat_length. intros j Hj.
      apply Hnone. lia.
Qed.

Definition alive_at (k j : nat) : bool := Nat.eqb j k.

Lemma discover_task_one_second_steps_witness :
  cstate (sample_client State.Connected []) <> State.Discovery
  /\ (forall k, 1 <= k <= 15 ->
       (forall j, 1 <= j < k -> alive_at 4 j = false) -> alive_at 4 k = true ->
       discover_task (sample_client State.Connected []) first_packet
         first_packet (alive_at 4) (mkNet [] []) = DReturned (repeat 1 k) [first_packet])
  /\ ((forall j, 1 <= j <= 15 -> alive_at 4 j = false) ->
      outcome_sleeps (discover_task (sample_client State.Connected [])
                        first_packet first_packet (alive_at 4) (mkNet [] []))
      = repeat 1 15
      /\ outcome_returned (discover_task (sample_client State.Connected [])
                        first_packet first_packet (alive_at 4) (mkNet [] []))
         = false).
Proof.
  split; [discriminate|].
  apply discover_task_one_second_steps. discriminate.
Defined.

(** C6 (confirmed).  When the wait is exhausted without [Alive] and the
    backlog is empty, the fallback leaves the stack with members
    [[hostname]] and an empty backlog, and the client Alive. *)
Theorem discover_fallback_resets_stack (c : client) (a s : packet)
    (obs : nat -> bool) (n : net) :
  cstate c <> State.Discovery ->
  (forall j, 1 <= j <= 15 -> obs j = false) ->
  backlog n = [] ->
  exists c',
    discover_task c a s obs n = DTimedOut (repeat 1 15) c' [a]
    /\ members (network c') = [hostname c]
    /\ backlog (network c') = []
    /\ cstate c' = State.Alive.
Proof.
  intros Hs Hnone Hb.
  assert (Hns : State.eqb (cstate c) State.Discovery = false).
  { destruct (State.eqb _ _) eqn:E; [apply State.state_eqb_eq in E; contradiction|].
    reflexivity. }
  unfold discover_task. rewrite Hns. simpl State.eqb.
  rewrite wait_loop_exhausts.
  - rewrite Hb. eexists. split; [reflexivity|]. simpl. auto.
  - unfold discover_steps. rewrite repeat_length. intros j Hj.
    apply Hnone. lia.
Qed.

Lemma discover_fallback_resets_stack_witness :
  cstate (sample_client State.Connected ["A"]) <> State.Discovery
  /\ (forall j, 1 <= j <= 15 -> never_alive j = false)
  /\ backlog (mkNet ["A"] []) = []
  /\ exists c',
       discover_task (sample_client State.Connected ["A"]) first_packet
         first_packet never_alive (mkNet ["A"] [])
       = DTimedOut (repeat 1 15) c' [first_packet]
       /\ members (network c') = [hostname (sample_client State.Connected ["A"])]
       /\ backlog (network c') = []
       /\ cstate c' = State.Alive.
Proof.
  split; [discriminate|]. split; [reflexivity|]. split; [reflexivity|].
  apply discover_fallback_resets_stack; [discriminate | reflexivity | reflexivity].
Defined.

(** ** C5: [remove] on the network stack *)

(** C5 (corrected), counterexample.  Removing a host that is not a member
    raises [ValueError], also through [on_packet] on a Dead packet. *)
Lemma remove_absent_host_raises :
  remove (PStr "hostX") (mkNet ["A"; "B"] []) = Raise ValueError
  /\ on_packet (sample_client State.Alive ["A"; "B"])
       (sample_packet OpCode.Dead "A" (PStr "hostX") None)
     = (sample_client State.Alive ["A"; "B"],
        [Dispatch (HUser 2) (sample_packet OpCode.Dead "A" (PStr "hostX") None)],
        Some ValueError).
Proof. split; reflexivity. Qed.

Lemma list_remove_cases (ms : list string) (h : string) :
  (In h ms ->
   exists pre post, ms = pre ++ h :: post /\ ~ In h pre
   /\ list_remove h ms = Ok (pre ++ post))
  /\ (~ In h ms -> list_remove h ms = Raise ValueError).
Proof.
  unfold list_remove.
  induction ms as [|y r [IHin IHout]]; simpl.
  - split; [intros []| reflexivity].
  - destruct (String.eqb y h) eqn:E.
    + apply String.eqb_eq in E. subst y. split.
      * intros _. exists [], r. simpl. auto.
      * intros Hn. exfalso. apply Hn. left. reflexivity.
    + apply String.eqb_neq in E. split.
      * intros [Hy | Hin]; [contradiction|].
        destruct (IHin Hin) as [pre [post [Hms [Hpre Hrm]]]].
        exists (y :: pre), post. rewrite Hrm, Hms. simpl.
        split; [reflexivity|]. split; [|reflexivity].
        intros [Hy | Hp]; [contradiction | exact (Hpre Hp)].
      * intros Hn. rewrite IHout; [reflexivity|].
        intros Hin. apply Hn. right. exact Hin.
Qed.

(** C5 (corrected).  [remove(h)] deletes the first occurrence of [h] from
    the members, keeping the backlog, when [h] is a member, and raises
    [ValueError] when it is not. *)
Theorem remove_first_or_value_error (ms : list string) (h : string)
    (b : list packet) :
  (In h ms ->
   exists pre post, ms = pre ++ h :: post /\ ~ In h pre
   /\ remove (PStr h) (mkNet ms b) = Ok (mkNet (pre ++ post) b))
  /\ (~ In h ms -> remove (PStr h) (mkNet ms b) = Raise ValueError).
Proof.
  destruct (list_remove_cases ms h) as [Hin Hout]. unfold remove. simpl.
  split.
  - intros H. destruct (Hin H) as [pre [post [Hms [Hpre Hrm]]]].
    exists pre, post. rewrite Hrm. auto.
  - intros H. rewrite (Hout H). reflexivity.
Qed.

Lemma remove_first_or_value_error_witness :
  In "hostX" ["A"; "B"; "hostX"]
  /\ (exists pre post, ["A"; "B"; "hostX"] = pre ++ "hostX" :: post
      /\ ~ In "hostX" pre
      /\ remove (PStr "hostX") (mkNet ["A"; "B"; "hostX"] [])
         = Ok (mkNet (pre ++ post) [])).
Proof.
  split; [simpl; auto|].
  apply (proj1 (remove_first_or_value_error ["A"; "B"; "hostX"] "hostX" [])).
  simpl. auto.
Defined.

Example scenario_d_removal :
  remove (PStr "hostX") (mkNet ["A"; "B"; "hostX"] [])
  = Ok (mkNet ["A"; "B"] []).
Proof. reflexivity. Qed.

(** ** C7: [collect] deletes at most once *)

Definition sleeping (pc : collect_pc) : nat :=
  match pc with CSleeping => 1 | _ => 0 end.

Fixpoint pending (l : list collect_pc) : nat :=
  match l with [] => 0 | pc :: r => sleeping pc + pending r end.

(** Deletions made, plus deletions still possible: one per sleeping task,
    and one if the flag is still unset. *)
Definition budget (w : collect_world) (l : list collect_pc) : nat :=
  attempts w + pending l + (if collected w then 0 else 1).

Lemma pending_replace_nth (l : list collect_pc) (i : nat) (y x : collect_pc) :
  nth_error l i = Some y ->
  pending (replace_nth l i x) + sleeping y = pending l + sleeping x.
Proof.
  revert i. induction l as [|z r IH]; intros i Hi; [destruct i; discriminate|].
  destruct i as [|i]; simpl in *.
  - injection Hi as ->. lia.
  - specialize (IH i Hi). lia.
Qed.

Lemma collect_step_budget (ts : option Z) (t : Z) (w : collect_world)
    (pc : collect_pc) :
  attempts (fst (collect_step ts t w pc)) + sleeping (snd (collect_step ts t w pc))
  + (if collected (fst (collect_step ts t w pc)) then 0 else 1)
  <= attempts w + sleeping pc + (if collected w then 0 else 1).
Proof.
  destruct pc; simpl.
  - destruct (collected w) eqn:Ec; simpl; [rewrite Ec; lia|].
    destruct ts as [s|]; simpl; [|lia].
    destruct (Z.leb (s + t) (now w)); simpl; lia.
  - destruct (collected w); lia.
  - lia.
Qed.

Lemma run_sched_budget (ts : option Z) (t : Z) (acts : list sched_action) :
  forall w l,
  budget (fst (run_sched ts t acts w l)) (snd (run_sched ts t acts w l))
  <= budget w l.
Proof.
  induction acts as [|a rest IH]; intros w l; simpl; [lia|].
  destruct a as [i | dt].
  - destruct (nth_error l i) as [pc|] eqn:Hi; [|apply IH].
    pose proof (collect_step_budget ts t w pc) as Hs.
    destruct (collect_step ts t w pc) as [w' pc'] eqn:E. simpl in Hs.
    pose proof (pending_replace_nth l i pc pc' Hi) as Hp.
    specialize (IH w' (replace_nth l i pc')).
    unfold budget in *. lia.
  - apply (Nat.le_trans _ _ _ (IH _ l)). unfold budget. simpl. lia.
Qed.

Lemma pending_repeat_start (k : nat) : pending (repeat CStart k) = 0.
Proof. induction k; simpl; auto. Qed.

(** C7 (confirmed).  However many [collect()] tasks run on one packet with
    a TTL, concurrently and under any interleaving with the clock,
    [delete()] is called at most once more than before they started. *)
Theorem collect_deletes_at_most_once (ts : option Z) (t : Z)
    (acts : list sched_action) (w : collect_world) (k : nat) :
  attempts (fst (run_sched ts t acts w (repeat CStart k))) <= attempts w + 1.
Proof.
  pose proof (run_sched_budget ts t acts w (repeat CStart k)) as H.
  unfold budget in H. rewrite pending_repeat_start in H.
  destruct (collected w); lia.
Qed.

(** Scenario C: a packet with [ttl = 5], two concurrent [collect()] tasks,
    five seconds elapse; [delete()] is called exactly once. *)
Example scenario_c_collect :
  attempts (fst (run_sched (Some 1000%Z) 5
                   [RunTask 0; RunTask 1; Tick 5; RunTask 0; RunTask 1]
                   (mkWorld false 0 1000) [CStart; CStart])) = 1.
Proof. reflexivity. Qed.

(** ** C9: the shared default backlog *)

(** C9 (confirmed).  Two [BaseNetwork] objects built without [backlog]
    share one backlog list: a packet appended to the first one's backlog is
    in the backlog of one built afterwards. *)
Theorem default_backlog_shared (h : Heap.heap) (args1 args2 : list Heap.pyobj)
    (p : packet) :
  let '(n1, h1) := Heap.BaseNetwork_new h args1 None in
  let h2 := Heap.append h1 (Heap.backlog_loc n1) (Heap.OPacket p) in
  let '(n2, h3) := Heap.BaseNetwork_new h2 args2 None in
  Heap.backlog_loc n2 = Heap.backlog_loc n1
  /\ In (Heap.OPacket p) (Heap.cells h3 (Heap.backlog_loc n2)).
Proof.
  simpl. split; [reflexivity|].
  apply in_or_app. right. left. reflexivity.
Qed.

Example default_backlog_not_empty :
  let '(n1, h1) := Heap.BaseNetwork_new (Heap.mkHeap (fun _ => []) 1) [] None in
  let h2 := Heap.append h1 (Heap.backlog_loc n1)
              (Heap.OPacket (sample_packet OpCode.Data "A" PNone None)) in
  let '(n2, h3) := Heap.BaseNetwork_new h2 [] None in
  Heap.cells h3 (Heap.backlog_loc n2)
  = [Heap.OPacket (sample_packet OpCode.Data "A" PNone None)].
Proof. reflexivity. Qed.

(** ** C10: [head] of an emptied stack *)

(** A broadcast Dead packet from [from] naming [h], and a broadcast Alive
    packet from [from]. *)
Definition dead_from (from h : string) : packet :=
  mkPacket 5 OpCode.Dead from None (PStr h) (Some 60%Z) (Some 1000%Z).

Definition alive_from (from : string) : packet :=
  mkPacket 6 OpCode.Alive from None PNone (Some 60%Z) (Some 1000%Z).

(** [on_packet] on a sequence of packets, keeping the client it leaves. *)
Definition process_all (c : client) (ps : list packet) : client :=
  fold_left (fun c p => fst (fst (on_packet c p))) ps c.

Lemma on_packet_dead_member (c : client) (from y : string) (r : list string) :
  cstate c = State.Alive -> from <> hostname c ->
  members (network c) = y :: r ->
  fst (fst (on_packet c (dead_from from y)))
  = set_network c (mkNet r (backlog (network c))).
Proof.
  intros Hs Hf Hm. rewrite on_packet_alive_unfold by exact Hs. cbv zeta.
  simpl. apply String.eqb_neq in Hf. rewrite Hf. simpl.
  unfold remove, list_remove. rewrite Hm. simpl. rewrite String.eqb_refl.
  reflexivity.
Qed.

Lemma process_dead_members (from : string) (ms : list string) :
  forall c, cstate c = State.Alive -> from <> hostname c ->
  members (network c) = ms ->
  let c' := process_all c (map (dead_from from) ms) in
  members (network c') = [] /\ cstate c' = State.Alive
  /\ hostname c' = hostname c.
Proof.
  induction ms as [|y r IH]; intros c Hs Hf Hm; cbv zeta; simpl.
  - auto.
  - rewrite (on_packet_dead_member c from y r Hs Hf Hm).
    apply (IH (set_network c (mkNet r (backlog (network c))))); auto.
Qed.

(** C10 (confirmed).  [head] of a stack with no members raises
    [IndexError]; an Alive client that receives a Dead packet from another
    host for each of its members in turn (its own name included) is left
    with no members, still Alive, and the next Alive packet from another
    host makes [on_packet] raise [IndexError] at [network.head]. *)
Theorem emptied_stack_head_raises (c : client) (from : string) :
  cstate c = State.Alive ->
  from <> hostname c ->
  head (mkNet [] (backlog (network c))) = Raise IndexError
  /\ (let c' := process_all c (map (dead_from from) (members (network c))) in
      members (network c') = []
      /\ cstate c' = State.Alive
      /\ snd (on_packet c' (alive_from from)) = Some IndexError).
Proof.
  intros Hs Hf. split; [reflexivity|]. cbv zeta.
  destruct (process_dead_members from (members (network c)) c Hs Hf eq_refl)
    as [Hm [Hs' Hh]].
  set (c' := process_all _ _) in *.
  split; [exact Hm|]. split; [exact Hs'|].
  rewrite on_packet_alive_unfold by exact Hs'. cbv zeta. simpl.
  rewrite Hh. apply String.eqb_neq in Hf. rewrite Hf. simpl.
  unfold head. rewrite Hm. reflexivity.
Qed.

Lemma emptied_stack_head_raises_witness :
  cstate (sample_client State.Alive ["A"; "B"]) = State.Alive
  /\ "C" <> hostname (sample_client State.Alive ["A"; "B"])
  /\ (head (mkNet [] []) = Raise IndexError
      /\ (let c' := process_all (sample_client State.Alive ["A"; "B"])
                      (map (dead_from "C") ["A"; "B"]) in
          members (network c') = []
          /\ cstate c' = State.Alive
          /\ snd (on_packet c' (alive_from "C")) = Some IndexError)).
Proof.
  split; [reflexivity|]. split; [discriminate|].
  apply (emptied_stack_head_raises (sample_client State.Alive ["A"; "B"]) "C");
    [reflexivity | discriminate].
Defined.

(** * Further code of the repository *)

(** ** Op code values (enums.py) and [OpCode(value)] *)

(** [OpCode.X.value]. *)
Definition opcode_value (o : OpCode.t) : Z :=
  match o with
  | OpCode.Heartbeat => 0 | OpCode.Alive => 1 | OpCode.Dead => 2
  | OpCode.Data => 3 | OpCode.Ack => 4 | OpCode.Hello => 5 | OpCode.Sync => 6
  end.

(** [OpCode(z)] on an int: the member with that value, or [ValueError]. *)
Definition OpCode_of_int (z : Z) : result OpCode.t :=
  match z with
  | 0%Z => Ok OpCode.Heartbeat
  | 1%Z => Ok OpCode.Alive
  | 2%Z => Ok OpCode.Dead
  | 3%Z => Ok OpCode.Data
  | 4%Z => Ok OpCode.Ack
  | 5%Z => Ok OpCode.Hello
  | 6%Z => Ok OpCode.Sync
  | _ => Raise ValueError
  end.

(** ** [Service.listener(type_)] (core/service.py) *)




(** ** [Configuration.search] (core/cfg.py) *)

Module Cfg.

(** Exceptions [search] can raise. *)
Inductive err := KeyError | TypeError | AttributeError.

Inductive res := Found (v : pyval) | Fail (e : err).

(** [d.get(k)] on a dict with distinct keys. *)
Fixpoint dict_get (kv : list (string * pyval)) (k : string) : option pyval :=
  match kv with
  | [] => None
  | (k', v) :: r => if String.eqb k' k then Some v else dict_get r k
  end.

(** [v[key]] with a string [key]: a dict lookup; lists and strings need int
    indices, and ints and [None] are not subscriptable. *)
Definition subscript (v : pyval) (key : string) : res :=
  match v with
  | PDict kv => match dict_get kv key with Some x => Found x | None => Fail KeyError end
  | _ => Fail TypeError
  end.

(** [search(key, *, backend=None)] on the configuration dict [cfg] whose
    [self.backend] is [self_backend]:
    [data = self.get('config', {})
     try: return data.get(backend or self.backend, {})[key]
     except KeyError: return data[key]] *)
Definition search (cfg : list (string * pyval)) (self_backend : string)
    (backend : option string) (key : string) : res :=
  let data := match dict_get cfg "config" with Some d => d | None => PDict [] end in
  match data with
  | PDict kv =>
      let b := match backend with
               | Some s => if String.eqb s "" then self_backend else s
               | None => self_backend
               end in
      let section := match dict_get kv b with Some v => v | None => PDict [] end in
      match subscript section key with
      | Fail KeyError => subscript data key
      | r => r
      end
  | _ => Fail AttributeError      (* only a dict has [.get] *)
  end.

End Cfg.

(** ** Extra properties: op codes, listener keys, configuration *)

(** [OpCode(v)] inverts [.value], and ints outside [0..6] are rejected. *)
Theorem OpCode_of_int_spec (z : Z) :
  (forall o, OpCode_of_int (opcode_value o) = Ok o)
  /\ ((0 <= z <= 6)%Z -> exists o, OpCode_of_int z = Ok o /\ opcode_value o = z)
  /\ ((z < 0 \/ 6 < z)%Z -> OpCode_of_int z = Raise ValueError).
Proof.
  split; [intros []; reflexivity|]. split.
  - intros Hz.
    assert (z = 0 \/ z = 1 \/ z = 2 \/ z = 3 \/ z = 4 \/ z = 5 \/ z = 6)%Z
      as Hc by lia.
    destruct Hc as [->|[->|[->|[->|[->|[->| ->]]]]]]; eexists; split; reflexivity.
  - intros Hz. destruct z as [|p|p]; [lia| |reflexivity].
    repeat match goal with
           | q : positive |- _ => destruct q; try reflexivity; try lia
           end.
Qed.


(** [Configuration.search]: when the selected backend section is a dict
    holding [key], its value wins; when the section lacks [key] or is absent,
    the shared [config] value is returned, and [KeyError] is raised when that
    is absent too.  [backend=None] and [backend=""] both select
    [self.backend]. *)
Theorem Cfg_search_lookup (kv : list (string * pyval)) (rest : list (string * pyval))
    (self_b : string) (backend : option string) (key : string) :
  let b := match backend with
           | Some s => if String.eqb s "" then self_b else s
           | None => self_b
           end in
  let cfg := ("config", PDict kv) :: rest in
  (forall skv v, Cfg.dict_get kv b = Some (PDict skv) ->
     Cfg.dict_get skv key = Some v -> Cfg.search cfg self_b backend key = Cfg.Found v)
  /\ ((forall skv, Cfg.dict_get kv b = Some (PDict skv) -> Cfg.dict_get skv key = None) ->
      (forall v, Cfg.dict_get kv b = Some v -> exists skv, v = PDict skv) ->
      Cfg.search cfg self_b backend key
      = match Cfg.dict_get kv key with
        | Some v => Cfg.Found v
        | None => Cfg.Fail Cfg.KeyError
        end).
Proof.
  cbv zeta. unfold Cfg.search. simpl.
  set (b := match backend with
            | Some s => if String.eqb s "" then self_b else s
            | None => self_b end).
  split.
  - intros skv v Hb Hk. rewrite Hb. simpl. rewrite Hk. reflexivity.
  - intros Hnone Hdict. destruct (Cfg.dict_get kv b) as [v|] eqn:Hb.
    + destruct (Hdict v eq_refl) as [skv ->]. simpl.
      rewrite (Hnone skv eq_refl). reflexivity.
    + reflexivity.
Qed.

Lemma Cfg_search_lookup_witness :
  Cfg.search [("config", PDict [("discord", PDict [("token", PStr "t1")]);
                                ("token", PStr "t0"); ("bot", PInt 1)])]
    "discord" None "token" = Cfg.Found (PStr "t1")
  /\ Cfg.search [("config", PDict [("discord", PDict [("token", PStr "t1")]);
                                  ("token", PStr "t0"); ("bot", PInt 1)])]
      "discord" (Some "") "bot" = Cfg.Found (PInt 1).
Proof.
  destruct (Cfg_search_lookup [("discord", PDict [("token", PStr "t1")]);
                               ("token", PStr "t0"); ("bot", PInt 1)] []
              "discord" None "token") as [H1 _].
  destruct (Cfg_search_lookup [("discord", PDict [("token", PStr "t1")]);
                               ("token", PStr "t0"); ("bot", PInt 1)] []
              "discord" (Some "") "bot") as [_ H2].
  split.
  - apply (H1 [("token", PStr "t1")]); reflexivity.
  - rewrite H2; [reflexivity | |].
    + intros skv Hs. injection Hs as <-. reflexivity.
    + intros v Hv. injection Hv as <-. eexists. reflexivity.
Defined.

(** ** The wire format (backend/discord/packet.py) *)

From Stdlib Require Import Ascii.

(** Python's [s[i:j]] on a string (step 1): negative indices count from the
    end, and both bounds are clipped to [0..len(s)]. *)
Definition py_index (k n : Z) : Z :=
  if (k <? 0)%Z then Z.max 0 (k + n) else Z.min k n.

Definition py_slice (s : string) (i j : Z) : string :=
  let n := Z.of_nat (String.length s) in
  let a := py_index i n in
  let b := py_index j n in
  if (a <? b)%Z then substring (Z.to_nat a) (Z.to_nat (b - a)) s else "".

Definition fence : string := "```".
Definition newline : string := String (ascii_of_nat 10) "".

(** [Packet.encoded_json]: [f'```json\n{self.json()}```']. *)
Definition encoded_json (j : string) : string :=
  fence ++ "json" ++ newline ++ j ++ fence.

(** The first step of [Packet.from_message]:
    [content = message.content[8:-3]], rejected with [ValueError] when it
    has fewer than 13 characters; otherwise handed to [json.loads]. *)
Definition from_message_content (raw : string) : result string :=
  let content := py_slice raw 8 (-3) in
  if Nat.ltb (String.length content) 13 then Raise ValueError else Ok content.

(** Decimal text of a natural number, as [f'{n}'] prints it. *)
Fixpoint uint_to_string (u : Decimal.uint) : string :=
  match u with
  | Decimal.Nil => ""
  | Decimal.D0 r => String "0" (uint_to_string r)
  | Decimal.D1 r => String "1" (uint_to_string r)
  | Decimal.D2 r => String "2" (uint_to_string r)
  | Decimal.D3 r => String "3" (uint_to_string r)
  | Decimal.D4 r => String "4" (uint_to_string r)
  | Decimal.D5 r => String "5" (uint_to_string r)
  | Decimal.D6 r => String "6" (uint_to_string r)
  | Decimal.D7 r => String "7" (uint_to_string r)
  | Decimal.D8 r => String "8" (uint_to_string r)
  | Decimal.D9 r => String "9" (uint_to_string r)
  end.

Definition str_of_N (n : N) : string := uint_to_string (N.to_uint n).

Definition digit (c : ascii) : option (Decimal.uint -> Decimal.uint) :=
  match c with
  | "0"%char => Some Decimal.D0 | "1"%char => Some Decimal.D1
  | "2"%char => Some Decimal.D2 | "3"%char => Some Decimal.D3
  | "4"%char => Some Decimal.D4 | "5"%char => Some Decimal.D5
  | "6"%char => Some Decimal.D6 | "7"%char => Some Decimal.D7
  | "8"%char => Some Decimal.D8 | "9"%char => Some Decimal.D9
  | _ => None
  end.

Fixpoint digits_to_uint (s : string) : option Decimal.uint :=
  match s with
  | EmptyString => Some Decimal.Nil
  | String c r =>
      match digit c, digits_to_uint r with
      | Some d, Some u => Some (d u)
      | _, _ => None
      end
  end.

(** Python's [int(s)] on a non-empty string of ASCII digits.  [None] marks
    every other string, which this model leaves out (Python accepts some of
    them, e.g. with a sign or surrounding spaces, and rejects the rest). *)
Definition int_of_str (s : string) : option Z :=
  match s with
  | EmptyString => None
  | _ => option_map (fun u => Z.of_N (N.of_uint u)) (digits_to_uint s)
  end.

(** [Packet.payload] at the clock reading [now] ([int(time.time())]). *)
Definition payload (p : packet) (now : N) : list (string * pyval) :=
  [("op", PInt (opcode_value (op p)));
   ("d", data p);
   ("f", PStr (author p));
   ("t", match recipient p with Some r => PStr r | None => PNone end);
   ("ts", PStr (str_of_N now));
   ("ttl", match ttl p with Some t => PInt t | None => PNone end);
   ("s", PInt (seq p))].

Module Wire.

(** Exceptions of decoding; [Unmodelled] marks a value the [packet] record
    does not hold (Python would store the object as it is). *)
Inductive err := KeyError | TypeError | ValueError | Unmodelled.

Inductive res := Decoded (p : packet) | Failed (e : err).

End Wire.

(** Python truthiness of a JSON value. *)
Definition truthy (v : pyval) : bool :=
  match v with
  | PNone => false
  | PInt z => negb (Z.eqb z 0)
  | PStr s => negb (String.eqb s "")
  | PList l => match l with [] => false | _ => true end
  | PDict kv => match kv with [] => false | _ => true end
  end.

(** [Packet.from_message] after [json.loads]: the [kwargs] lookups
    [payload['f'], ['op'], ['t'], ['d'], ['ttl'], ['ts'], ['s']], then
    [Packet.__init__]: the seq ([kwargs.get('seq') or next(...)]) first,
    then the op check and [OpCode(op)], then [int(timestamp)].  Returns the
    result and the seq generator's new state. *)
Definition from_payload (counter : Z) (kv : list (string * pyval))
    : Wire.res * Z :=
  match Cfg.dict_get kv "f", Cfg.dict_get kv "op", Cfg.dict_get kv "t",
        Cfg.dict_get kv "d", Cfg.dict_get kv "ttl", Cfg.dict_get kv "ts",
        Cfg.dict_get kv "s" with
  | Some f, Some o, Some t, Some d, Some tl, Some ts, Some s =>
      let '(sq, counter') :=
        if truthy s
        then (match s with PInt z => Some z | _ => None end, counter)
        else (Some counter, Z.succ counter) in
      let fail e := (Wire.Failed e, counter') in
      match sq with
      | None => fail Wire.Unmodelled
      | Some sq =>
          match o with
          | PInt z =>
              match OpCode_of_int z with
              | Raise _ => fail Wire.ValueError
              | Ok oc =>
                  match f,
                        (match t with PStr r => Some (Some r) | PNone => Some None
                                 | _ => None end),
                        (match tl with PInt x => Some (Some x) | PNone => Some None
                                  | _ => None end) with
                  | PStr a, Some r, Some x =>
                      match ts with
                      | PNone => (Wire.Decoded (mkPacket sq oc a r d x None), counter')
                      | PInt y => (Wire.Decoded (mkPacket sq oc a r d x (Some y)), counter')
                      | PStr y =>
                          match int_of_str y with
                          | Some y' =>
                              (Wire.Decoded (mkPacket sq oc a r d x (Some y')), counter')
                          | None => fail Wire.Unmodelled
                          end
                      | _ => fail Wire.TypeError       (* int() of a list or dict *)
                      end
                  | _, _, _ => fail Wire.Unmodelled
                  end
              end
          | _ => fail Wire.TypeError     (* not isinstance(op, (OpCode, int)) *)
          end
      end
  | _, _, _, _, _, _, _ => (Wire.Failed Wire.KeyError, counter)
  end.

(** [Packet.expired] at the clock reading [now]:
    [self.expires and time.time() >= (self.ttl + self.timestamp)]. *)
Definition expired (p : packet) (now : Z) : result bool :=
  match ttl p with
  | None => Ok false
  | Some t =>
      match timestamp p with
      | None => Raise TypeError              (* [ttl + None] *)
      | Some ts => Ok (Z.leb (t + ts) now)
      end
  end.

(** ** Extra properties: the wire format *)

From Stdlib Require Import DecimalN.

Lemma string_length_app (s1 s2 : string) :
  String.length (s1 ++ s2) = String.length s1 + String.length s2.
Proof. induction s1; simpl; auto. Qed.

Lemma substring_length (m k : nat) (s : string) :
  String.length (substring m k s) = Nat.min k (String.length s - m).
Proof.
  revert m k. induction s as [|c s IH]; intros m k.
  - destruct m, k; reflexivity.
  - destruct m as [|m]; [destruct k as [|k]|]; simpl.
    + reflexivity.
    + rewrite IH. simpl. rewrite Nat.sub_0_r. reflexivity.
    + apply IH.
Qed.

Lemma substring_app_prefix (j r : string) :
  substring 0 (String.length j) (j ++ r) = j.
Proof. induction j; simpl; [destruct r; reflexivity | rewrite IHj; reflexivity]. Qed.

Lemma py_slice_8_3 (s : string) :
  py_slice s 8 (-3)
  = if Nat.ltb 11 (String.length s) then substring 8 (String.length s - 11) s else "".
Proof.
  unfold py_slice, py_index.
  replace (8 <? 0)%Z with false by reflexivity.
  replace (-3 <? 0)%Z with true by reflexivity.
  set (n := String.length s).
  destruct (Nat.ltb_spec 11 n) as [Hn|Hn].
  - rewrite Z.min_l by lia. rewrite Z.max_r by lia.
    destruct (Z.ltb_spec 8 (-3 + Z.of_nat n)) as [_|Hab]; [|lia].
    replace (Z.to_nat 8) with 8 by reflexivity.
    replace (Z.to_nat (-3 + Z.of_nat n - 8)) with (n - 11) by lia.
    reflexivity.
  - destruct (Z.ltb_spec (Z.min 8 (Z.of_nat n)) (Z.max 0 (-3 + Z.of_nat n)))
      as [Hab|_]; [lia|reflexivity].
Qed.

(** [from_message] frames: [content[8:-3]] is rejected exactly when the raw
    message content has fewer than 24 characters; otherwise it is the
    content without its first 8 and last 3 characters. *)
Theorem from_message_content_spec (raw : string) :
  (String.length raw < 24 -> from_message_content raw = Raise ValueError)
  /\ (24 <= String.length raw ->
      from_message_content raw = Ok (substring 8 (String.length raw - 11) raw)).
Proof.
  unfold from_message_content. rewrite py_slice_8_3.
  set (n := String.length raw).
  split; intros Hn.
  - destruct (Nat.ltb_spec 11 n) as [_|_]; [|reflexivity].
    rewrite substring_length.
    replace (Nat.ltb _ 13) with true; [reflexivity|].
    symmetry. apply Nat.ltb_lt. lia.
  - destruct (Nat.ltb_spec 11 n) as [_|Hab]; [|lia].
    rewrite substring_length.
    replace (Nat.ltb _ 13) with false; [reflexivity|].
    symmetry. apply Nat.ltb_ge. lia.
Qed.

Lemma from_message_content_spec_witness :
  String.length "short" < 24 /\ from_message_content "short" = Raise ValueError.
Proof.
  split; [simpl; lia|]. apply (proj1 (from_message_content_spec "short")).
  simpl. lia.
Defined.

(** [encoded_json] and [from_message] agree: cutting 8 characters in front
    and 3 behind gives back the JSON text, which [from_message] then accepts
    exactly when it has at least 13 characters. *)
Theorem encoded_json_round_trip (j : string) :
  py_slice (encoded_json j) 8 (-3) = j
  /\ from_message_content (encoded_json j)
     = if Nat.ltb (String.length j) 13 then Raise ValueError else Ok j.
Proof.
  assert (Hs : py_slice (encoded_json j) 8 (-3) = j).
  { rewrite py_slice_8_3.
    assert (Hl : String.length (encoded_json j) = 8 + String.length j + 3).
    { unfold encoded_json. rewrite !string_length_app. simpl. lia. }
    rewrite Hl.
    destruct (Nat.ltb_spec 11 (8 + String.length j + 3)) as [_|Hab].
    - replace (8 + String.length j + 3 - 11) with (String.length j) by lia.
      unfold encoded_json. simpl. apply substring_app_prefix.
    - destruct j; [reflexivity | simpl in Hab; lia]. }
  split; [exact Hs|]. unfold from_message_content. rewrite Hs. reflexivity.
Qed.

Lemma digits_uint_round_trip (u : Decimal.uint) :
  digits_to_uint (uint_to_string u) = Some u.
Proof. induction u; simpl; try rewrite IHu; reflexivity. Qed.

Lemma to_uint_not_nil (n : N) : N.to_uint n <> Decimal.Nil.
Proof.
  intros H. pose proof (DecimalN.Unsigned.of_to n) as E. rewrite H in E.
  simpl in E. subst n. discriminate H.
Qed.

(** [int(f'{n}')] gives [n] back for every natural number [n]. *)
Theorem int_of_str_of_N (n : N) : int_of_str (str_of_N n) = Some (Z.of_N n).
Proof.
  assert (Hne : str_of_N n <> EmptyString).
  { unfold str_of_N. pose proof (to_uint_not_nil n) as Hn.
    destruct (N.to_uint n); simpl; congruence. }
  unfold int_of_str.
  destruct (str_of_N n) as [|c r] eqn:Es; [contradiction|].
  rewrite <- Es. unfold str_of_N. rewrite digits_uint_round_trip. simpl.
  rewrite DecimalN.Unsigned.of_to. reflexivity.
Qed.

(** What [from_message] decodes from the payload of [p] sent at time [now]:
    the same op, author, recipient, data and ttl, the send time as
    timestamp, and the seq handled as [Packet.__init__] does (kept when
    non-zero, a fresh one from the generator for 0). *)
Theorem from_payload_payload (counter : Z) (p : packet) (now : N) :
  from_payload counter (payload p now)
  = let '(s, c') := alloc_seq (Some (seq p)) counter in
    (Wire.Decoded (mkPacket s (op p) (author p) (recipient p) (data p) (ttl p)
                     (Some (Z.of_N now))), c').
Proof.
  unfold from_payload, payload. simpl Cfg.dict_get. cbv iota beta.
  unfold alloc_seq, truthy.
  rewrite int_of_str_of_N.
  destruct (Z.eqb (seq p) 0); simpl;
    destruct (op p), (recipient p), (ttl p); reflexivity.
Qed.

(** ** Extra properties: [AbstractClient.on_packet] *)

(** The tasks [on_packet] creates before it looks at the recipient: the
    listener dispatches (Alive only) and the cleanup of an own expiring
    packet. *)
Definition on_packet_tasks (c : client) (p : packet) : list effect :=
  (if State.eqb (cstate c) State.Alive
   then map (fun f => Dispatch f p) (listeners c (Some (op p)) ++ listeners c None)
   else [])
  ++ (if String.eqb (author p) (hostname c) && expires p then [CollectTask p] else []).

Definition is_respond (e : effect) : bool :=
  match e with Respond _ _ _ _ => true | _ => false end.

Definition active (s : State.t) : bool :=
  State.eqb s State.Alive || State.eqb s State.Discovery.

Ltac split_matches :=
  repeat match goal with
         | |- context [if ?b then _ else _] => destruct b eqn:?
         | |- context [match ?x with _ => _ end] =>
             lazymatch x with
             | context [match _ with _ => _ end] => fail
             | _ => destruct x eqn:?
             end
         end.

Lemma on_packet_shape (c : client) (p : packet) :
  let '(c', es, _) := on_packet c p in
  hostname c' = hostname c /\ cstate c' = cstate c /\ listeners c' = listeners c
  /\ next_closure c' = next_closure c
  /\ (active (cstate c) = false -> es = [])
  /\ (active (cstate c) = true ->
      exists extra, es = on_packet_tasks c p ++ extra
                    /\ forallb is_respond extra = true).
Proof.
  unfold on_packet, on_packet_tasks, active.
  destruct (cstate c) eqn:Hs; simpl; split_matches; simpl; rewrite ?Hs;
    repeat split; try reflexivity; try (intros; discriminate);
    intros _;
    first [ exists []; split; [rewrite ?app_nil_r; reflexivity | reflexivity]
          | eexists; split; reflexivity ].
Qed.




(** [on_packet] never changes the client's hostname, state or listeners:
    in particular a client in Discovery never becomes Alive through
    [on_packet] (the Hello and Sync branches raise before
    [self._state = State.Alive]). *)
Theorem on_packet_keeps_identity (c : client) (p : packet) :
  let '(c', _, _) := on_packet c p in
  hostname c' = hostname c /\ cstate c' = cstate c /\ listeners c' = listeners c.
Proof.
  pose proof (on_packet_shape c p) as H.
  destruct (on_packet c p) as [[c' es] e]. tauto.
Qed.

(** A cleanup task [packet.collect()] is scheduled exactly when the client
    is Alive or in Discovery, the packet is its own, and it has a ttl. *)
Theorem on_packet_collect_iff (c : client) (p : packet) :
  In (CollectTask p) (snd (fst (on_packet c p)))
  <-> active (cstate c) = true /\ author p = hostname c /\ expires p = true.
Proof.
  pose proof (on_packet_shape c p) as H.
  destruct (on_packet c p) as [[c' es] e]. simpl.
  destruct H as [_ [_ [_ [_ [Hoff Hon]]]]].
  destruct (active (cstate c)) eqn:Ha.
  - destruct (Hon eq_refl) as [extra [-> Hr]].
    unfold on_packet_tasks. rewrite !in_app_iff. split.
    + intros [[Hd | Hcl] | Hx].
      * destruct (State.eqb _ _); [|contradiction].
        apply in_map_iff in Hd. destruct Hd as [f [Hf _]]. discriminate.
      * destruct (String.eqb (author p) (hostname c)) eqn:Eq; [|contradiction].
        destruct (expires p); [|contradiction].
        apply String.eqb_eq in Eq. auto.
      * rewrite forallb_forall in Hr. specialize (Hr _ Hx). discriminate.
    + intros [_ [Hau Hex]]. left. right. rewrite Hau, String.eqb_refl, Hex.
      left. reflexivity.
  - rewrite (Hoff eq_refl). simpl. split; [intros []|intros [Hf _]; discriminate].
Qed.

(** A listener task [func(packet)] is created exactly when the client is
    Alive and [func] is registered under the packet's op code or under the
    wildcard key: nothing is dispatched during Discovery. *)
Theorem on_packet_dispatch_iff (c : client) (p : packet) (f : handler) :
  In (Dispatch f p) (snd (fst (on_packet c p)))
  <-> cstate c = State.Alive /\ In f (listeners c (Some (op p)) ++ listeners c None).
Proof.
  pose proof (on_packet_shape c p) as H.
  destruct (on_packet c p) as [[c' es] e]. simpl.
  destruct H as [_ [_ [_ [_ [Hoff Hon]]]]].
  destruct (active (cstate c)) eqn:Ha.
  - destruct (Hon eq_refl) as [extra [-> Hr]].
    unfold on_packet_tasks. rewrite !in_app_iff. split.
    + intros [[Hd | Hcl] | Hx].
      * destruct (State.eqb (cstate c) State.Alive) eqn:Es; [|contradiction].
        apply State.state_eqb_eq in Es.
        apply in_map_iff in Hd. destruct Hd as [g [Hg Hin]].
        injection Hg as ->. split; [exact Es | apply in_app_iff; exact Hin].
      * destruct (_ && _); [|contradiction].
        destruct Hcl as [Hcl|[]]. discriminate.
      * rewrite forallb_forall in Hr. specialize (Hr _ Hx). discriminate.
    + intros [Hs Hin]. left. left. rewrite Hs. simpl.
      apply (in_map (fun g => Dispatch g p)). apply in_app_iff. exact Hin.
  - rewrite (Hoff eq_refl). simpl. split; [intros []|].
    intros [Hs _]. rewrite Hs in Ha. discriminate.
Qed.

(** Own packets and packets addressed to another host are not processed
    past the task creation: the client is unchanged, nothing is raised and
    no response is sent. *)
Theorem on_packet_ignores_own_or_foreign (c : client) (p : packet) :
  author p = hostname c \/ (exists r, recipient p = Some r /\ r <> hostname c) ->
  on_packet c p = (c, if active (cstate c) then on_packet_tasks c p else [], None).
Proof.
  intros H. unfold on_packet, on_packet_tasks, active.
  destruct (cstate c) eqn:Hs; simpl; try reflexivity;
    (destruct H as [Ha | [r [Hr Hne]]];
     [ rewrite Ha, String.eqb_refl; reflexivity
     | rewrite Hr; apply String.eqb_neq in Hne; rewrite Hne, orb_true_r;
       reflexivity ]).
Qed.

Definition addressed_to (r : string) (p : packet) : packet :=
  mkPacket (seq p) (op p) (author p) (Some r) (data p) (ttl p) (timestamp p).

Lemma on_packet_ignores_own_or_foreign_witness :
  let c := sample_client State.Alive ["A"; "B"] in
  let p := addressed_to "C" (sample_packet OpCode.Dead "A" (PStr "A") None) in
  (author p = hostname c \/ (exists r, recipient p = Some r /\ r <> hostname c))
  /\ on_packet c p
     = (c, if active (cstate c) then on_packet_tasks c p else [], None).
Proof.
  cbv zeta.
  assert (H : exists r,
      recipient (addressed_to "C" (sample_packet OpCode.Dead "A" (PStr "A") None))
        = Some r /\ r <> hostname (sample_client State.Alive ["A"; "B"])).
  { exists "C". split; [reflexivity | discriminate]. }
  split; [right; exact H|].
  apply on_packet_ignores_own_or_foreign. right. exact H.
Defined.





(** ** Extra properties: [Client.send_packet] and its Ack callback *)


(** The Ack callback ignores an Ack with another seq: delivered to an Alive
    client whose only Ack listener is that callback (and no wildcard
    listener), such an Ack changes nothing and calls nothing. *)
Theorem deliver_other_ack_is_ignored (c : client) (p : packet) (id : nat)
    (s : Z) (cb : nat) :
  cstate c = State.Alive ->
  listeners c (Some OpCode.Ack) = [HInner (HCallback id s cb)] ->
  listeners c None = [] ->
  op p = OpCode.Ack ->
  seq p <> s ->
  deliver c p = (c, []).
Proof.
  intros Hs Hl Hw Ho Hq. apply Z.eqb_neq in Hq.
  unfold deliver. rewrite on_packet_alive_unfold by exact Hs. cbv zeta.
  rewrite Ho, Hl, Hw. simpl.
  destruct (_ || _); destruct (_ && _); simpl; rewrite Hq; reflexivity.
Qed.

Lemma deliver_other_ack_is_ignored_witness :
  let c := set_listeners (sample_client State.Alive ["A"; "B"]) None [] in
  let c' := set_listeners c (Some OpCode.Ack) [HInner (HCallback 0 3 9)] in
  cstate c' = State.Alive
  /\ listeners c' (Some OpCode.Ack) = [HInner (HCallback 0 3 9)]
  /\ listeners c' None = []
  /\ op sample_ack = OpCode.Ack /\ seq sample_ack <> 3%Z
  /\ deliver c' sample_ack = (c', []).
Proof.
  cbv zeta. split; [reflexivity|]. split; [reflexivity|]. split; [reflexivity|].
  split; [reflexivity|]. split; [discriminate|].
  apply deliver_other_ack_is_ignored with (id := 0) (s := 3%Z) (cb := 9);
    [reflexivity | reflexivity | reflexivity | reflexivity | discriminate].
Defined.

(** ** Extra properties: [_discover_task] *)



(** The timeout fallback with a non-empty backlog: a backlog of two or more
    packets makes [_functools_reduce(stack.step, backlog)] call the
    one-argument [step] with two arguments, a [TypeError]: the Sync packet is
    never sent and the state is not set to Alive.  A backlog of one packet is
    returned by [reduce] without a call: the Sync packet is sent and the
    client becomes Alive with the stack unchanged. *)
Theorem discover_task_backlog_replay (c : client) (a s : packet)
    (obs : nat -> bool) (n : net) :
  cstate c <> State.Discovery ->
  (forall j, 1 <= j <= 15 -> obs j = false) ->
  (2 <= length (backlog n) ->
   discover_task c a s obs n = DFailed (repeat 1 15) TypeError [a])
  /\ (forall q, backlog n = [q] ->
      discover_task c a s obs n
      = DTimedOut (repeat 1 15) (set_state (set_network c n) State.Alive) [a; s]).
Proof.
  intros Hs Hnone.
  assert (Hns : State.eqb (cstate c) State.Discovery = false).
  { destruct (State.eqb _ _) eqn:E; [apply State.state_eqb_eq in E; contradiction|].
    reflexivity. }
  unfold discover_task. rewrite Hns. simpl State.eqb.
  rewrite wait_loop_exhausts.
  - split.
    + intros Hl. destruct (backlog n) as [|p [|q b]]; simpl in Hl; [lia|lia|].
      reflexivity.
    + intros q Hq. rewrite Hq. reflexivity.
  - unfold discover_steps. rewrite repeat_length. intros j Hj.
    apply Hnone. lia.
Qed.

Lemma discover_task_backlog_replay_witness :
  let c := sample_client State.Connected [] in
  let n := mkNet [] [first_packet; first_packet] in
  cstate c <> State.Discovery
  /\ (forall j, 1 <= j <= 15 -> never_alive j = false)
  /\ ((2 <= length (backlog n) ->
       discover_task c first_packet sample_ack never_alive n
       = DFailed (repeat 1 15) TypeError [first_packet])
      /\ (forall q, backlog n = [q] ->
          discover_task c first_packet sample_ack never_alive n
          = DTimedOut (repeat 1 15) (set_state (set_network c n) State.Alive)
              [first_packet; sample_ack])).
Proof.
  cbv zeta. split; [discriminate|]. split; [reflexivity|].
  apply discover_task_backlog_replay; [discriminate | reflexivity].
Defined.

(** ** [Client._shutdown] and [Client.shutdown] (backend/discord/client.py) *)

(** [_shutdown()]: a no-op when already Dead; otherwise it POSTs the
    encoded Dead packet [Packet(author=self.hostname, op=OpCode.Dead,
    ttl=60)] (its [data] is [None]) at the clock reading [now], and in
    [finally] sets the state to Dead whether or not the request succeeded.
    Returns the client and the payloads handed to the request. *)
Definition _shutdown (c : client) (now : N)
    : client * list (list (string * pyval)) :=
  if State.eqb (cstate c) State.Dead then (c, [])
  else
    let '(pk, cnt) :=
      Packet_init (counter c) None OpCode.Dead (hostname c) None PNone (Some 60%Z) in
    (mkClient (hostname c) State.Dead (network c) (listeners c) cnt (next_closure c),
     [payload pk now]).



(** The Dying packet of [_shutdown] never takes its author off a peer's
    stack: decoded by an Alive peer, it is a broadcast Dead packet whose
    data is [None], and [network.remove(None)] raises [ValueError], so the
    peer's stack is unchanged.  The sender ends Dead. *)
Theorem dying_packet_never_removes (c r : client) (now : N) :
  cstate c <> State.Dead ->
  cstate r = State.Alive ->
  hostname r <> hostname c ->
  let '(c', posts) := _shutdown c now in
  cstate c' = State.Dead
  /\ exists kv q k',
       posts = [kv]
       /\ from_payload (counter r) kv = (Wire.Decoded q, k')
       /\ op q = OpCode.Dead /\ data q = PNone
       /\ snd (on_packet r q) = Some ValueError
       /\ network (fst (fst (on_packet r q))) = network r.
Proof.
  intros Hc Hr Hne.
  assert (Hns : State.eqb (cstate c) State.Dead = false).
  { destruct (State.eqb _ _) eqn:E; [apply State.state_eqb_eq in E; contradiction|].
    reflexivity. }
  unfold _shutdown. rewrite Hns.
  cbv beta iota zeta delta [Packet_init alloc_seq]. split; [reflexivity|].
  set (pk := mkPacket (counter c) OpCode.Dead (hostname c) None PNone (Some 60%Z) None).
  exists (payload pk now).
  rewrite (from_payload_payload (counter r) pk now).
  destruct (alloc_seq (Some (seq pk)) (counter r)) as [sq k'] eqn:Ealloc.
  eexists; exists k'. split; [reflexivity|]. split; [reflexivity|].
  split; [reflexivity|]. split; [reflexivity|].
  rewrite on_packet_alive_unfold by exact Hr. cbv zeta. simpl.
  apply not_eq_sym, String.eqb_neq in Hne. rewrite Hne. simpl.
  split; reflexivity.
Qed.

Lemma dying_packet_never_removes_witness :
  let c := sample_client State.Alive ["A"; "B"] in
  let r := mkClient "A" State.Alive (mkNet ["A"; "B"] []) sample_listeners 5 0 in
  cstate c <> State.Dead /\ cstate r = State.Alive /\ hostname r <> hostname c
  /\ (let '(c', posts) := _shutdown c 1700000000%N in
      cstate c' = State.Dead
      /\ exists kv q k',
           posts = [kv]
           /\ from_payload (counter r) kv = (Wire.Decoded q, k')
           /\ op q = OpCode.Dead /\ data q = PNone
           /\ snd (on_packet r q) = Some ValueError
           /\ network (fst (fst (on_packet r q))) = network r).
Proof.
  cbv zeta. split; [discriminate|]. split; [reflexivity|]. split; [discriminate|].
  apply (dying_packet_never_removes (sample_client State.Alive ["A"; "B"])
           (mkClient "A" State.Alive (mkNet ["A"; "B"] []) sample_listeners 5 0));
    [discriminate | reflexivity | discriminate].
Defined.



(** ** [Client._stream_reader_task] (backend/discord/client.py) *)

(** A Discord message as the reader sees it: whether [check(message)]
    holds (it is in the inbound channel), its content, and what
    [json.loads] gives for [content[8:-3]] ([None] when that text is not
    JSON: [json.JSONDecodeError] is a [ValueError]). *)
Record message := mkMessage {
  in_inbound : bool;
  content : string;
  parsed : option pyval
}.

(** [Packet.from_message(client, channel, message)]: the length check, then
    [json.loads], then the [payload[...]] lookups and [Packet.__init__];
    subscripting a JSON value other than an object with ['f'] raises
    [TypeError]. *)
Definition from_message (counter : Z) (m : message) : Wire.res * Z :=
  match from_message_content (content m) with
  | Raise _ => (Wire.Failed Wire.ValueError, counter)
  | Ok _ =>
      match parsed m with
      | None => (Wire.Failed Wire.ValueError, counter)
      | Some (PDict kv) => from_payload counter kv
      | Some _ => (Wire.Failed Wire.TypeError, counter)
      end
  end.

(** [_stream_reader_task(check)] over the messages that arrive, in order:
    messages failing [check] are skipped, a [ValueError] from
    [from_message] drops the message, a decoded packet is dispatched
    ([self.dispatch('packet', packet)]), and any other exception ends the
    task.  Returns the dispatched packets, the seq generator, and the
    exception that ended the task, if any. *)
Fixpoint stream_reader (counter : Z) (msgs : list message)
    : list packet * Z * option Wire.err :=
  match msgs with
  | [] => ([], counter, None)
  | m :: rest =>
      if negb (in_inbound m) then stream_reader counter rest
      else
        match from_message counter m with
        | (Wire.Failed Wire.ValueError, c') => stream_reader c' rest
        | (Wire.Failed e, c') => ([], c', Some e)
        | (Wire.Decoded p, c') =>
            let '(ps, c'', e) := stream_reader c' rest in (p :: ps, c'', e)
        end
  end.


(** A message whose content has fewer than 24 characters is dropped by the
    reader without drawing a seq. *)
Theorem stream_reader_drops_short (k : Z) (m : message) (rest : list message) :
  String.length (content m) < 24 ->
  stream_reader k (m :: rest) = stream_reader k rest.
Proof.
  intros Hm. simpl. destruct (in_inbound m); [|reflexivity]. simpl.
  unfold from_message. rewrite (proj1 (from_message_content_spec (content m)) Hm).
  reflexivity.
Qed.

Definition short_message : message := mkMessage true "```json" None.

Lemma stream_reader_drops_short_witness :
  String.length (content short_message) < 24
  /\ stream_reader 0 (short_message :: [short_message])
     = stream_reader 0 [short_message].
Proof.
  split; [simpl; lia|]. apply stream_reader_drops_short. simpl. lia.
Defined.


Definition dq (s : string) : string :=
  String (ascii_of_nat 34) (s ++ String (ascii_of_nat 34) "").



(** Sending and reading back: a message carrying [encoded_json] of a JSON
    text of at least 13 characters whose [json.loads] is the payload of [p]
    sent at [now] is dispatched as [p] with the send time as timestamp; the
    seq is kept unless it is 0. *)
Theorem stream_reader_round_trip (k : Z) (j : string) (p : packet) (now : N) :
  13 <= String.length j ->
  stream_reader k [mkMessage true (encoded_json j) (Some (PDict (payload p now)))]
  = let '(s, k') := alloc_seq (Some (seq p)) k in
    ([mkPacket s (op p) (author p) (recipient p) (data p) (ttl p)
        (Some (Z.of_N now))], k', None).
Proof.
  intros Hj. simpl. unfold from_message. simpl content.
  rewrite (proj2 (encoded_json_round_trip j)).
  replace (Nat.ltb (String.length j) 13) with false
    by (symmetry; apply Nat.ltb_ge; exact Hj).
  simpl parsed. cbv iota. rewrite from_payload_payload.
  unfold alloc_seq. destruct (seq p =? 0)%Z; reflexivity.
Qed.

Lemma stream_reader_round_trip_witness :
  let j := ("{" ++ dq "op" ++ ": 3, " ++ dq "f" ++ ": " ++ dq "A" ++ "}")%string in
  13 <= String.length j
  /\ stream_reader 0 [mkMessage true (encoded_json j)
                        (Some (PDict (payload sample_ack 1700000000)))]
     = let '(s, k') := alloc_seq (Some (seq sample_ack)) 0 in
       ([mkPacket s (op sample_ack) (author sample_ack) (recipient sample_ack)
           (data sample_ack) (ttl sample_ack) (Some (Z.of_N 1700000000))], k', None).
Proof.
  cbv zeta. split; [simpl; lia|]. apply stream_reader_round_trip. simpl. lia.
Defined.

(** ** Extra properties: decoding errors *)

(** A payload lacking one of the seven keys raises [KeyError] before
    [Packet.__init__] runs: no seq is drawn. *)
Theorem from_payload_missing_key (k : Z) (kv : list (string * pyval)) (key : string) :
  In key ["f"; "op"; "t"; "d"; "ttl"; "ts"; "s"] ->
  Cfg.dict_get kv key = None ->
  from_payload k kv = (Wire.Failed Wire.KeyError, k).
Proof.
  intros Hin Hk. unfold from_payload.
  simpl in Hin.
  repeat (destruct Hin as [<- | Hin];
          [rewrite Hk;
           destruct (Cfg.dict_get kv "f"), (Cfg.dict_get kv "op"),
             (Cfg.dict_get kv "t"), (Cfg.dict_get kv "d"),
             (Cfg.dict_get kv "ttl"), (Cfg.dict_get kv "ts"),
             (Cfg.dict_get kv "s"); reflexivity|]).
  contradiction.
Qed.

Lemma from_payload_missing_key_witness :
  In "s" ["f"; "op"; "t"; "d"; "ttl"; "ts"; "s"]
  /\ Cfg.dict_get [("f", PStr "A"); ("op", PInt 3); ("t", PNone); ("d", PNone);
                   ("ttl", PNone); ("ts", PStr "1")] "s" = None
  /\ from_payload 4 [("f", PStr "A"); ("op", PInt 3); ("t", PNone); ("d", PNone);
                     ("ttl", PNone); ("ts", PStr "1")]
     = (Wire.Failed Wire.KeyError, 4%Z).
Proof.
  split; [simpl; tauto|]. split; [reflexivity|].
  apply from_payload_missing_key with (key := "s"); [simpl; tauto | reflexivity].
Defined.

(** An op value outside [0..6] is rejected with [ValueError] (the reader
    drops the message), but only after [Packet.__init__] has taken the
    seq: a seq of 0 still advances the generator. *)
Theorem from_payload_bad_op_consumes_seq (k : Z) (kv : list (string * pyval))
    (f t d tl ts : pyval) (z sz : Z) :
  Cfg.dict_get kv "f" = Some f -> Cfg.dict_get kv "op" = Some (PInt z) ->
  Cfg.dict_get kv "t" = Some t -> Cfg.dict_get kv "d" = Some d ->
  Cfg.dict_get kv "ttl" = Some tl -> Cfg.dict_get kv "ts" = Some ts ->
  Cfg.dict_get kv "s" = Some (PInt sz) ->
  (z < 0 \/ 6 < z)%Z ->
  from_payload k kv = (Wire.Failed Wire.ValueError, snd (alloc_seq (Some sz) k)).
Proof.
  intros Hf Ho Ht Hd Htl Hts Hs Hz. unfold from_payload.
  rewrite Hf, Ho, Ht, Hd, Htl, Hts, Hs.
  destruct (OpCode_of_int_spec z) as [_ [_ Hout]].
  unfold truthy, alloc_seq.
  destruct (Z.eqb sz 0); simpl; rewrite (Hout Hz); reflexivity.
Qed.

Lemma from_payload_bad_op_consumes_seq_witness :
  let kv := [("f", PStr "A"); ("op", PInt 9); ("t", PNone); ("d", PNone);
             ("ttl", PNone); ("ts", PStr "1"); ("s", PInt 0)] in
  Cfg.dict_get kv "f" = Some (PStr "A") /\ Cfg.dict_get kv "op" = Some (PInt 9)
  /\ Cfg.dict_get kv "t" = Some PNone /\ Cfg.dict_get kv "d" = Some PNone
  /\ Cfg.dict_get kv "ttl" = Some PNone /\ Cfg.dict_get kv "ts" = Some (PStr "1")
  /\ Cfg.dict_get kv "s" = Some (PInt 0) /\ (9 < 0 \/ 6 < 9)%Z
  /\ from_payload 4 kv = (Wire.Failed Wire.ValueError, 5%Z).
Proof.
  cbv zeta. do 7 (split; [reflexivity|]). split; [lia|].
  apply (from_payload_bad_op_consumes_seq 4 _ (PStr "A") PNone PNone PNone (PStr "1")
           9 0); try reflexivity. lia.
Defined.

(** [Packet.expired]: a packet read back from the payload sent at [now] is
    expired from [now + ttl] on and never without a ttl; a packet built
    locally with a ttl has no timestamp, and [expired] raises
    [TypeError] on it. *)
Theorem expired_after_round_trip (k : Z) (p : packet) (now : N) (t : Z) :
  match fst (from_payload k (payload p now)) with
  | Wire.Decoded q =>
      expired q t = match ttl p with
                    | None => Ok false
                    | Some tl => Ok (Z.leb (tl + Z.of_N now) t)
                    end
  | Wire.Failed _ => False
  end
  /\ (forall k0 o a rc d tl,
        expired (fst (Packet_init k0 None o a rc d (Some tl))) t = Raise TypeError).
Proof.
  split.
  - rewrite from_payload_payload. destruct (alloc_seq _ _). simpl.
    unfold expired. simpl. destruct (ttl p); reflexivity.
  - intros. reflexivity.
Qed.

(** ** [Client._assert_configuration] (backend/discord/client.py) *)

(** [str(z)] for an int. *)
Definition py_str_int (z : Z) : string :=
  if (z <? 0)%Z then String "-" (str_of_N (Z.to_N (- z))) else str_of_N (Z.to_N z).

(** [int(s)] on an optionally signed string of ASCII digits; [None] marks
    the strings this model leaves out. *)
Definition py_int_str (s : string) : option Z :=
  match s with
  | String "-" r => option_map Z.opp (int_of_str r)
  | _ => int_of_str s
  end.

(** [int(v)] on a JSON value: ints are kept, strings parsed, and [None],
    lists and objects raise [TypeError]. *)
Definition py_int (v : pyval) : Z + Wire.err :=
  match v with
  | PInt z => inl z
  | PStr s => match py_int_str s with Some z => inl z | None => inr Wire.Unmodelled end
  | _ => inr Wire.TypeError
  end.

(** [int(str(v))]. *)
Definition py_int_of_str (v : pyval) : Z + Wire.err :=
  match v with
  | PInt z => py_int (PStr (py_str_int z))
  | PStr s => py_int (PStr s)
  | _ => inr Wire.Unmodelled        (* [str] of None, a list or a dict *)
  end.

(** [_assert_configuration(config)]:
    [backend = config['config']['discord']];
    [KeyError] without ['inbound']; [inbound = int(backend['inbound'])];
    [outbound = int(str(backend.get('outbound', inbound)))].
    Returns [(inbound, outbound)]. *)
Definition _assert_configuration (config : list (string * pyval)) : (Z * Z) + Wire.err :=
  match Cfg.subscript (PDict config) "config" with
  | Cfg.Fail Cfg.KeyError => inr Wire.KeyError
  | Cfg.Fail _ => inr Wire.TypeError
  | Cfg.Found cv =>
      match Cfg.subscript cv "discord" with
      | Cfg.Fail Cfg.KeyError => inr Wire.KeyError
      | Cfg.Fail _ => inr Wire.TypeError
      | Cfg.Found (PDict bkv) =>
          match Cfg.dict_get bkv "inbound" with
          | None => inr Wire.KeyError
          | Some iv =>
              match py_int iv with
              | inr e => inr e
              | inl inbound =>
                  let ov := match Cfg.dict_get bkv "outbound" with
                            | Some v => v
                            | None => PInt inbound
                            end in
                  match py_int_of_str ov with
                  | inr e => inr e
                  | inl outbound => inl (inbound, outbound)
                  end
              end
          end
      | Cfg.Found _ => inr Wire.Unmodelled    (* [in] on a list or a string *)
      end
  end.

Lemma str_of_N_first (n : N) :
  exists c r, str_of_N n = String c r /\ digit c <> None.
Proof.
  unfold str_of_N. pose proof (to_uint_not_nil n) as Hn.
  destruct (N.to_uint n); [contradiction | ..]; do 2 eexists; split;
    try reflexivity; discriminate.
Qed.

(** [int(str(z)) == z] for every int. *)
Lemma py_int_str_round_trip (z : Z) : py_int_str (py_str_int z) = Some z.
Proof.
  unfold py_str_int. destruct (Z.ltb_spec z 0) as [Hz|Hz].
  - simpl. rewrite int_of_str_of_N. simpl. f_equal. lia.
  - destruct (str_of_N_first (Z.to_N z)) as [c [r [E Hd]]].
    unfold py_int_str. rewrite E.
    assert (Hc : c <> "-"%char) by (intros ->; apply Hd; reflexivity).
    rewrite <- E, int_of_str_of_N. replace (Z.of_N (Z.to_N z)) with z by lia.
    destruct c as [[] [] [] [] [] [] [] []]; try reflexivity; contradiction.
Qed.

(** With the Discord section a dict: without ['inbound'] the check raises
    [KeyError]; with an int ['inbound'] and no ['outbound'] both channels
    are the inbound one; an int ['outbound'] is taken as it is. *)
Theorem assert_configuration_channels (config ckv bkv : list (string * pyval))
    (z : Z) :
  Cfg.dict_get config "config" = Some (PDict ckv) ->
  Cfg.dict_get ckv "discord" = Some (PDict bkv) ->
  (Cfg.dict_get bkv "inbound" = None -> _assert_configuration config = inr Wire.KeyError)
  /\ (Cfg.dict_get bkv "inbound" = Some (PInt z) -> Cfg.dict_get bkv "outbound" = None ->
      _assert_configuration config = inl (z, z))
  /\ (forall w, Cfg.dict_get bkv "inbound" = Some (PInt z) ->
      Cfg.dict_get bkv "outbound" = Some (PInt w) ->
      _assert_configuration config = inl (z, w)).
Proof.
  intros Hc Hd. unfold _assert_configuration. simpl. rewrite Hc. simpl. rewrite Hd.
  split; [intros Hi; rewrite Hi; reflexivity|]. split.
  - intros Hi Ho. rewrite Hi, Ho. simpl. rewrite py_int_str_round_trip. reflexivity.
  - intros w Hi Ho. rewrite Hi, Ho. simpl. rewrite py_int_str_round_trip. reflexivity.
Qed.

Lemma assert_configuration_channels_witness :
  let bkv := [("inbound", PInt 42); ("token", PStr "t")] in
  let ckv := [("discord", PDict bkv)] in
  let config := [("config", PDict ckv)] in
  Cfg.dict_get config "config" = Some (PDict ckv)
  /\ Cfg.dict_get ckv "discord" = Some (PDict bkv)
  /\ ((Cfg.dict_get bkv "inbound" = None ->
       _assert_configuration config = inr Wire.KeyError)
      /\ (Cfg.dict_get bkv "inbound" = Some (PInt 42) ->
          Cfg.dict_get bkv "outbound" = None ->
          _assert_configuration config = inl (42%Z, 42%Z))
      /\ (forall w, Cfg.dict_get bkv "inbound" = Some (PInt 42) ->
          Cfg.dict_get bkv "outbound" = Some (PInt w) ->
          _assert_configuration config = inl (42%Z, w))).
Proof.
  cbv zeta. split; [reflexivity|]. split; [reflexivity|].
  apply (assert_configuration_channels
           [("config", PDict [("discord", PDict [("inbound", PInt 42); ("token", PStr "t")])])]
           [("discord", PDict [("inbound", PInt 42); ("token", PStr "t")])]
           [("inbound", PInt 42); ("token", PStr "t")] 42); reflexivity.
Defined.

(** ** Importing core/service.py *)

(** Module-level statements as far as name binding goes: imports and
    assignments bind names; a [def] or [class] statement evaluates the
    annotations of its signatures (eagerly, as Python 3.6 to 3.8 do, the
    versions setup.py lists) and then binds its name. *)
Inductive stmt :=
| Bind (names : list string)
| Def (name : string) (annotation_names : list string).

Fixpoint exec_module (g : list string) (ss : list stmt) : result (list string) :=
  match ss with
  | [] => Ok g
  | Bind ns :: rest => exec_module (ns ++ g) rest
  | Def n us :: rest =>
      if forallb (fun u => existsb (String.eqb u) g) us
      then exec_module (n :: g) rest
      else Raise NameError
  end.

(** The statements of core/service.py, in order. *)
Definition service_py : list stmt :=
  [Bind ["inspect"]; Bind ["importlib"]; Bind ["logging"]; Bind ["sys"];
   Bind ["pathlib"]; Bind ["traceback"];
   Bind ["defaultdict"];
   Bind ["Callable"; "Dict"; "Optional"];     (* from typing import ... *)
   Bind ["OpCode"];                           (* from .abc import OpCode *)
   Def "Service" ["Optional"; "OpCode"; "Dict"; "Callable"];
   Def "load" ["Tuple"; "Dict"; "Union"; "OpCode"; "str"; "Callable"; "Service"];
   Def "load_from" ["Tuple"; "Dict"; "Union"; "OpCode"; "str"; "Callable"; "Service"]].

(** Importing core/service.py raises [NameError]: the return annotation of
    [load] names [Tuple] (and [Union]), which the module never imports, and
    no builtin is called [Tuple]. *)
Theorem service_import_raises (builtins : list string) :
  ~ In "Tuple" builtins ->
  exec_module builtins service_py = Raise NameError.
Proof.
  intros Hb.
  assert (Hx : existsb (String.eqb "Tuple") builtins = false).
  { apply not_true_iff_false. intros H. apply existsb_exists in H.
    destruct H as [x [Hx Heq]]. apply String.eqb_eq in Heq. subst x. contradiction. }
  unfold service_py. cbv in Hx |- *. rewrite Hx. reflexivity.
Qed.

Lemma service_import_raises_witness :
  ~ In "Tuple" ["str"; "None"; "len"; "isinstance"]
  /\ exec_module ["str"; "None"; "len"; "isinstance"] service_py = Raise NameError.
Proof.
  split; [simpl; intuition discriminate|].
  apply service_import_raises. simpl. intuition discriminate.
Defined.

(** ** [BaseNetwork.reset] on the heap (abc/network.py) *)

(** [reset(data)]: [self.backlog = []] (a fresh list), then
    [self.clear(); self.extend(data)] on the stack's own list. *)
Definition BaseNetwork_reset (h : Heap.heap) (n : Heap.net_obj)
    (data : list Heap.pyobj) : Heap.net_obj * Heap.heap :=
  let '(b, h1) := Heap.alloc h [] in
  (Heap.mkNetObj (Heap.self_loc n) b, Heap.set_cell h1 (Heap.self_loc n) data).

(** [reset] detaches a stack from a backlog list it shared (such as the
    default one): packets appended to its backlog afterwards land in a
    fresh list, and every list that existed before is left as it was,
    apart from the stack's own list, which holds [data]. *)
Theorem reset_detaches_backlog (h : Heap.heap) (n : Heap.net_obj)
    (data : list Heap.pyobj) (x : Heap.pyobj) (l : nat) :
  Heap.self_loc n < Heap.next_loc h ->
  l < Heap.next_loc h ->
  l <> Heap.self_loc n ->
  let '(n', h1) := BaseNetwork_reset h n data in
  let h2 := Heap.append h1 (Heap.backlog_loc n') x in
  Heap.cells h2 (Heap.backlog_loc n') = [x]
  /\ Heap.cells h2 l = Heap.cells h l
  /\ Heap.cells h2 (Heap.self_loc n') = data.
Proof.
  intros Hs Hl Hne. simpl.
  rewrite Nat.eqb_refl.
  assert (E1 : Nat.eqb (Heap.next_loc h) (Heap.self_loc n) = false)
    by (apply Nat.eqb_neq; lia).
  assert (E2 : Nat.eqb l (Heap.next_loc h) = false) by (apply Nat.eqb_neq; lia).
  assert (E3 : Nat.eqb l (Heap.self_loc n) = false) by (apply Nat.eqb_neq; exact Hne).
  assert (E4 : Nat.eqb (Heap.self_loc n) (Heap.next_loc h) = false)
    by (apply Nat.eqb_neq; lia).
  rewrite E1, E2, E3, E4, Nat.eqb_refl. auto.
Qed.

Lemma reset_detaches_backlog_witness :
  let h := Heap.mkHeap (fun l => if Nat.eqb l 0
                                 then [Heap.OPacket (sample_packet OpCode.Data "A" PNone None)]
                                 else []) 2 in
  let n := Heap.mkNetObj 1 Heap.default_backlog_loc in
  1 < Heap.next_loc h /\ 0 < Heap.next_loc h /\ 0 <> 1
  /\ (let '(n', h1) := BaseNetwork_reset h n [Heap.OStr "B"] in
      let h2 := Heap.append h1 (Heap.backlog_loc n') (Heap.OStr "x") in
      Heap.cells h2 (Heap.backlog_loc n') = [Heap.OStr "x"]
      /\ Heap.cells h2 0 = Heap.cells h 0
      /\ Heap.cells h2 (Heap.self_loc n') = [Heap.OStr "B"]).
Proof.
  cbv zeta. split; [simpl; lia|]. split; [simpl; lia|]. split; [lia|].
  apply (reset_detaches_backlog _ (Heap.mkNetObj 1 Heap.default_backlog_loc)
           [Heap.OStr "B"] (Heap.OStr "x") 0); simpl; lia.
Defined.
